(** * Five teaching classes: bank account, book, car, coffee maker, smartphone

  A shallow embedding of [bank_account.py], [book.py], [car.py],
  [coffee_maker.py] and [smartphone.py].  Every class is a record of its
  attributes; every method is a function from the state before the call to
  the value it returns (or the exception it raises) and the state after it.

  Numbers.  Python [int] is [Z].  In the records a Python [float] is an
  exact rational [Q]: a finite value, without rounding, NaN or infinities.
  Rationals need not be in lowest terms, so values are compared with [==]
  and states that a method does not touch are compared with [=].  Where a
  statement depends on what float arithmetic does (the result of a
  subtraction, a NaN argument, a decimal literal), the lines of the method
  are given a second time on IEEE binary64 ([PrimFloat]), the arithmetic
  CPython's [float] has: [BankAccount.withdraw_binary64],
  [Car.drive_binary64], [CoffeeMaker.brew_binary64]. *)

From Stdlib Require Import ZArith QArith Bool String List Lia Lqa.
From Stdlib Require Import Ascii DecimalString Floats.
Import ListNotations.

(** * Python values and built-ins used by the five classes *)

Module Py.

(** Dynamically typed arguments, for the methods that test
    [isinstance(x, (int, float))] or compare against a string.  [bool] is a
    subclass of [int] in Python: [True] and [False] pass every test below
    as [VInt 1] and [VInt 0]. *)
Inductive value : Type :=
| VInt (z : Z)
| VFloat (q : Q)
| VStr (s : string)
| VNone.

(** [isinstance(v, (int, float))], with the number when it holds. *)
Definition as_number (v : value) : option Q :=
  match v with
  | VInt z => Some (inject_Z z)
  | VFloat q => Some q
  | VStr _ | VNone => None
  end.

(** [isinstance(v, int)]. *)
Definition as_int (v : value) : option Z :=
  match v with
  | VInt z => Some z
  | _ => None
  end.

(** [int(v)] on a number: truncation toward zero. *)
Definition int_of (q : Q) : Z := Z.quot (Qnum q) (Zpos (Qden q)).

(** [v == s] for a string [s]: a value of another type is never equal. *)
Definition eq_str (v : value) (s : string) : bool :=
  match v with
  | VStr t => String.eqb t s
  | _ => false
  end.

(** Comparisons [a <= b], [a < b], [a > b], [a >= b]. *)
Definition leb (a b : Q) : bool := Qle_bool a b.
Definition ltb (a b : Q) : bool := negb (Qle_bool b a).
Definition gtb (a b : Q) : bool := ltb b a.
Definition geb (a b : Q) : bool := leb b a.

(** [min(a, b)] and [max(a, b)]: the first argument wins a tie. *)
Definition min (a b : Q) : Q := if ltb b a then b else a.
Definition max (a b : Q) : Q := if gtb b a then b else a.

(** Exceptions raised by the classes. *)
Inductive exn : Type :=
| ValueError (msg : string).

(** What a call produces: a returned value or a raised exception. *)
Inductive outcome (R : Type) : Type :=
| Return (r : R)
| Raise (e : exn).
Arguments Return {R} r.
Arguments Raise {R} e.

Definition raised {R : Type} (o : outcome R) : bool :=
  match o with
  | Return _ => false
  | Raise _ => true
  end.

(** [str(n)] for an [int]. *)
Definition str_int (z : Z) : string := NilZero.string_of_int (Z.to_int z).

(** [s.startswith(p)] and [s.endswith(x)]. *)
Fixpoint rev_onto (s acc : string) : string :=
  match s with
  | EmptyString => acc
  | String c s' => rev_onto s' (String c acc)
  end.

Definition reverse (s : string) : string := rev_onto s EmptyString.

Definition startswith (s p : string) : bool := String.prefix p s.

Definition endswith (s x : string) : bool :=
  String.prefix (reverse x) (reverse s).

(** The one-character string written [\n] in the sources. *)
Definition nl : string := String (Ascii.ascii_of_nat 10) EmptyString.

(** The number an argument is, when it is one. *)
Definition numbers_of (v : value) : list Q :=
  match as_number v with
  | Some q => [q]
  | None => []
  end.

(** A number of at most 10^100 in magnitude: far inside the range of a
    [float], so that an [int] of this size is converted to a [float], added
    to one or formatted with [.2f] without [OverflowError]. *)
Definition moderate (q : Q) : bool :=
  Qle_bool (- inject_Z (10 ^ 100)) q && Qle_bool q (inject_Z (10 ^ 100)).

(** A binary64 value, as [SpecFloat] decodes it, that is zero or above;
    NaN is not. *)
Definition nonneg_sf (x : spec_float) : Prop :=
  match x with
  | S754_zero _ => True
  | S754_infinity s | S754_finite s _ _ => s = false
  | S754_nan => False
  end.

End Py.

(** * bank_account.py *)

Module BankAccount.

Record t : Type := mk {
  accountNumber : string;
  balance : Q;
  accountHolder : string;
  interestRate : Q;
  isActive : bool
}.

(** [__init__(account_number, account_holder, initial_balance=0.0,
    interest_rate=0.0)]. *)
Definition init (account_number account_holder : string)
    (initial_balance interest_rate : Q) : t :=
  {| accountNumber := account_number;
     balance := initial_balance;
     accountHolder := account_holder;
     interestRate := interest_rate;
     isActive := true |}.

Definition set_balance (b : Q) (s : t) : t :=
  {| accountNumber := accountNumber s;
     balance := b;
     accountHolder := accountHolder s;
     interestRate := interestRate s;
     isActive := isActive s |}.

Definition set_isActive (b : bool) (s : t) : t :=
  {| accountNumber := accountNumber s;
     balance := balance s;
     accountHolder := accountHolder s;
     interestRate := interestRate s;
     isActive := b |}.

(** The lines the methods print; the numbers are the ones interpolated. *)
Inductive line : Type :=
| ClosedNoTransactions
| DepositMustBePositive
| Deposited (amount new_balance : Q)
| WithdrawalMustBePositive
| InsufficientFunds
| Withdrew (amount new_balance : Q)
| ClosedNoInterest
| InterestCalculated (interest new_balance : Q)
| AccountClosed (account_number : string).

(** Returned values: a [bool], [None], or the balance. *)
Inductive ret : Type :=
| RBool (b : bool)
| RNone
| RNum (q : Q).

Record reply : Type := mkReply { value : ret; printed : list line }.

Definition deposit (amount : Q) (s : t) : reply * t :=
  if negb (isActive s) then
    (mkReply (RBool false) [ClosedNoTransactions], s)
  else if Py.leb amount 0 then
    (mkReply (RBool false) [DepositMustBePositive], s)
  else
    let s' := set_balance (balance s + amount) s in
    (mkReply (RBool true) [Deposited amount (balance s')], s').

Definition withdraw (amount : Q) (s : t) : reply * t :=
  if negb (isActive s) then
    (mkReply (RBool false) [ClosedNoTransactions], s)
  else if Py.leb amount 0 then
    (mkReply (RBool false) [WithdrawalMustBePositive], s)
  else if Py.gtb amount (balance s) then
    (mkReply (RBool false) [InsufficientFunds], s)
  else
    let s' := set_balance (balance s - amount) s in
    (mkReply (RBool true) [Withdrew amount (balance s')], s').

Definition calculateInterest (s : t) : reply * t :=
  if negb (isActive s) then
    (mkReply RNone [ClosedNoInterest], s)
  else
    let interest := balance s * interestRate s in
    let s' := set_balance (balance s + interest) s in
    (mkReply RNone [InterestCalculated interest (balance s')], s').

Definition closeAccount (s : t) : reply * t :=
  (mkReply RNone [AccountClosed (accountNumber s)], set_isActive false s).

Definition getBalance (s : t) : reply * t :=
  (mkReply (RNum (balance s)) [], s).

(** A method call with its arguments. *)
Inductive method : Type :=
| Deposit (amount : Q)
| Withdraw (amount : Q)
| CalculateInterest
| CloseAccount
| GetBalance.

Definition call (m : method) (s : t) : reply * t :=
  match m with
  | Deposit amount => deposit amount s
  | Withdraw amount => withdraw amount s
  | CalculateInterest => calculateInterest s
  | CloseAccount => closeAccount s
  | GetBalance => getBalance s
  end.

(** A sequence of calls on one account: the replies in order, and the
    final state. *)
Fixpoint run (ms : list method) (s : t) : list reply * t :=
  match ms with
  | [] => ([], s)
  | m :: ms' =>
      let (r, s1) := call m s in
      let (rs, s2) := run ms' s1 in
      (r :: rs, s2)
  end.

(** The call reports that it did not do what was asked: [False] is
    returned, or the closed-account line is printed. *)
Definition failure (r : reply) : bool :=
  match value r, printed r with
  | RBool false, _ => true
  | _, [ClosedNoInterest] => true
  | _, _ => false
  end.

(** The replies a closed account gives to [deposit] and [withdraw]. *)
Definition refused (m : method) (r : reply) : Prop :=
  match m with
  | Deposit _ | Withdraw _ => value r = RBool false
  | _ => True
  end.

(** [withdraw] on IEEE binary64: the guards of lines 61, 65 and 69 and the
    assignment of line 73, on the two attributes the method reads.  The
    result is the returned [bool] and the balance after the call.
    [amount > self.balance] on floats is [self.balance < amount]; every
    comparison with NaN is false. *)
Definition withdraw_binary64 (amount : float) (isActive : bool)
    (balance : float) : bool * float :=
  if negb isActive then (false, balance)
  else if PrimFloat.leb amount 0 then (false, balance)
  else if PrimFloat.ltb balance amount then (false, balance)
  else (true, PrimFloat.sub balance amount).

Section Formatting.

(** Python's [format(x, ".2f")] on a float. *)
Variable fmt_2f : Q -> string.

(** [__str__]. *)
Definition str (s : t) : string :=
  let status := (if isActive s then "Active" else "Closed")%string in
  ("Account Number: " ++ accountNumber s ++ Py.nl
   ++ "Account Holder: " ++ accountHolder s ++ Py.nl
   ++ "Balance: $" ++ fmt_2f (balance s) ++ Py.nl
   ++ "Interest Rate: " ++ fmt_2f (interestRate s * 100) ++ "%" ++ Py.nl
   ++ "Status: " ++ status)%string.

End Formatting.

End BankAccount.

(** * book.py *)

Module Book.

Local Open Scope string_scope.

Record t : Type := mk {
  title : string;
  author : string;
  isbn : string;
  pageCount : Z;
  isCheckedOut : bool
}.

(** [__init__(title, author, isbn, pageCount)]. *)
Definition init (title author isbn : string) (pageCount : Z) : t :=
  {| title := title;
     author := author;
     isbn := isbn;
     pageCount := pageCount;
     isCheckedOut := false |}.

Definition set_isCheckedOut (b : bool) (s : t) : t :=
  {| title := title s;
     author := author s;
     isbn := isbn s;
     pageCount := pageCount s;
     isCheckedOut := b |}.

Definition set_pageCount (n : Z) (s : t) : t :=
  {| title := title s;
     author := author s;
     isbn := isbn s;
     pageCount := n;
     isCheckedOut := isCheckedOut s |}.

Definition checkOut (s : t) : bool * t :=
  if negb (isCheckedOut s) then (true, set_isCheckedOut true s)
  else (false, s).

Definition returnBook (s : t) : bool * t :=
  if isCheckedOut s then (true, set_isCheckedOut false s)
  else (false, s).

Definition getSummary (s : t) : string :=
  "Title: " ++ title s ++ ", Author: " ++ author s ++ ", ISBN: " ++ isbn s.

Definition setPageCount (newCount : Py.value) (s : t) : Py.outcome unit * t :=
  match Py.as_int newCount with
  | None => (Py.Raise (Py.ValueError "Page count must be a positive integer"), s)
  | Some n =>
      if (n <=? 0)%Z then
        (Py.Raise (Py.ValueError "Page count must be a positive integer"), s)
      else (Py.Return tt, set_pageCount n s)
  end.

Definition isAvailable (s : t) : bool := negb (isCheckedOut s).

(** [__str__]. *)
Definition str (s : t) : string :=
  let status := if isAvailable s then "Available" else "Checked Out" in
  title s ++ " by " ++ author s ++ " (" ++ isbn s ++ ") - "
    ++ Py.str_int (pageCount s) ++ " pages - " ++ status.

(** The methods that assign to an attribute, with their arguments. *)
Inductive method : Type :=
| CheckOut
| ReturnBook
| SetPageCount (newCount : Py.value).

(** Returned values: a [bool] or [None]. *)
Inductive ret : Type :=
| RBool (b : bool)
| RNone.

Definition call (m : method) (s : t) : Py.outcome ret * t :=
  match m with
  | CheckOut => let (b, s') := checkOut s in (Py.Return (RBool b), s')
  | ReturnBook => let (b, s') := returnBook s in (Py.Return (RBool b), s')
  | SetPageCount newCount =>
      match setPageCount newCount s with
      | (Py.Return _, s') => (Py.Return RNone, s')
      | (Py.Raise e, s') => (Py.Raise e, s')
      end
  end.

(** The call reports failure: it returns [False] or raises. *)
Definition failure (r : Py.outcome ret) : bool :=
  match r with
  | Py.Return (RBool false) => true
  | Py.Return _ => false
  | Py.Raise _ => true
  end.

(** [__str__] names the value [b] of the flag, and not the other value:
    it ends with the one status word and not with the other. *)
Definition summary_shows (s : t) (b : bool) : Prop :=
  Py.endswith (str s) "Checked Out" = b /\
  Py.endswith (str s) "Available" = negb b.

(** A sequence of calls on one book: the outcomes in order, and the final
    state. *)
Fixpoint run (ms : list method) (s : t) : list (Py.outcome ret) * t :=
  match ms with
  | [] => ([], s)
  | m :: ms' =>
      let (r, s1) := call m s in
      let (rs, s2) := run ms' s1 in
      (r :: rs, s2)
  end.

End Book.

(** * car.py *)

Module Car.

Record t : Type := mk {
  make : string;
  model : string;
  year : Z;
  color : string;
  fuel_level : Q;
  is_engine_on : bool
}.

(** [__init__(make, model, year, color, fuel_level=100.0,
    is_engine_on=False)]: every argument is stored as it is given. *)
Definition init (make model : string) (year : Z) (color : string)
    (fuel_level : Q) (is_engine_on : bool) : t :=
  {| make := make;
     model := model;
     year := year;
     color := color;
     fuel_level := fuel_level;
     is_engine_on := is_engine_on |}.

Definition set_fuel_level (f : Q) (s : t) : t :=
  {| make := make s;
     model := model s;
     year := year s;
     color := color s;
     fuel_level := f;
     is_engine_on := is_engine_on s |}.

Definition set_is_engine_on (b : bool) (s : t) : t :=
  {| make := make s;
     model := model s;
     year := year s;
     color := color s;
     fuel_level := fuel_level s;
     is_engine_on := b |}.

(** The strings the methods return; the numbers are the ones interpolated.
    - [EngineStarted]: "Engine started successfully."
    - [CannotStart]: "Cannot start engine: insufficient fuel."
    - [EngineStopped]: "Engine stopped."
    - [CannotDrive]: "Cannot drive: engine is not running. ..."
    - [InvalidDistance]: "Invalid distance. Please enter a positive value."
    - [RanOutOfFuel d f]: "Ran out of fuel after driving d units. Engine
      stopped. Fuel level: f%"
    - [Drove d f]: "Drove d units. Remaining fuel: f%"
    - [InvalidFuelAmount]: "Invalid fuel amount. Please enter a positive
      value."
    - [Refueled f]: "Refueled. Current fuel level: f%" *)
Inductive message : Type :=
| EngineStarted
| CannotStart
| EngineStopped
| CannotDrive
| InvalidDistance
| RanOutOfFuel (actual_distance fuel : Q)
| Drove (distance fuel : Q)
| InvalidFuelAmount
| Refueled (fuel : Q).

Definition start_engine (s : t) : message * t :=
  if Py.gtb (fuel_level s) 0 then (EngineStarted, set_is_engine_on true s)
  else (CannotStart, s).

Definition stop_engine (s : t) : message * t :=
  (EngineStopped, set_is_engine_on false s).

Definition drive (distance : Q) (s : t) : message * t :=
  if negb (is_engine_on s) then (CannotDrive, s)
  else if Py.leb distance 0 then (InvalidDistance, s)
  else
    let fuel_consumption := (distance * 1)%Q in
    if Py.ltb (fuel_level s) fuel_consumption then
      let actual_distance := (fuel_level s / 1)%Q in
      let s' := set_is_engine_on false (set_fuel_level 0 s) in
      (RanOutOfFuel actual_distance (fuel_level s'), s')
    else
      let s' := set_fuel_level (fuel_level s - fuel_consumption) s in
      (Drove distance (fuel_level s'), s').

Definition refuel (amount : Q) (s : t) : message * t :=
  if Py.leb amount 0 then (InvalidFuelAmount, s)
  else
    let s' := set_fuel_level (Py.min 100 (fuel_level s + amount)) s in
    (Refueled (fuel_level s'), s').

(** The methods that assign to an attribute, with their arguments. *)
Inductive method : Type :=
| StartEngine
| StopEngine
| Drive (distance : Q)
| Refuel (amount : Q).

Definition call (m : method) (s : t) : message * t :=
  match m with
  | StartEngine => start_engine s
  | StopEngine => stop_engine s
  | Drive distance => drive distance s
  | Refuel amount => refuel amount s
  end.

Fixpoint run (ms : list method) (s : t) : list message * t :=
  match ms with
  | [] => ([], s)
  | m :: ms' =>
      let (r, s1) := call m s in
      let (rs, s2) := run ms' s1 in
      (r :: rs, s2)
  end.

(** The call reports that the request was not carried out, or not in
    full: the "Cannot ..." and "Invalid ..." strings, and the string of a
    drive cut short by an empty tank. *)
Definition failure (r : message) : bool :=
  match r with
  | CannotStart | CannotDrive | InvalidDistance | InvalidFuelAmount => true
  | RanOutOfFuel _ _ => true
  | EngineStarted | EngineStopped | Drove _ _ | Refueled _ => false
  end.

(** The four [return] statements of [drive]. *)
Inductive drive_return : Type :=
| ReturnCannotDrive
| ReturnInvalidDistance
| ReturnRanOutOfFuel
| ReturnDrove.

(** [drive] on IEEE binary64: lines 25 to 42 on the two attributes the
    method reads and assigns.  The result is the [return] statement taken,
    and [fuel_level] and [is_engine_on] after the call. *)
Definition drive_binary64 (distance : float) (is_engine_on : bool)
    (fuel_level : float) : drive_return * (float * bool) :=
  if negb is_engine_on then (ReturnCannotDrive, (fuel_level, is_engine_on))
  else if PrimFloat.leb distance 0 then
    (ReturnInvalidDistance, (fuel_level, is_engine_on))
  else
    let fuel_consumption := PrimFloat.mul distance 1 in
    if PrimFloat.ltb fuel_level fuel_consumption then
      (ReturnRanOutOfFuel, (0%float, false))
    else
      (ReturnDrove, (PrimFloat.sub fuel_level fuel_consumption, is_engine_on)).

(** The range written beside [fuel_level] in [__init__]: 0.0 to 100.0. *)
Definition fuel_in_range (s : t) : Prop :=
  (0 <= fuel_level s)%Q /\ (fuel_level s <= 100)%Q.

Definition get_details (s : t) : string :=
  (Py.str_int (year s) ++ " " ++ make s ++ " " ++ model s
   ++ " (" ++ color s ++ ")")%string.

Section Formatting.

(** Python's [format(x, ".1f")] on a float. *)
Variable fmt_1f : Q -> string.

(** [__str__]. *)
Definition str (s : t) : string :=
  let engine_status := (if is_engine_on s then "On" else "Off")%string in
  (get_details s ++ Py.nl
   ++ "Fuel Level: " ++ fmt_1f (fuel_level s) ++ "%" ++ Py.nl
   ++ "Engine: " ++ engine_status)%string.

End Formatting.

End Car.

(** * coffee_maker.py *)

Module CoffeeMaker.

Local Open Scope string_scope.

(** One entry of [CUP_SIZES]: water in ml, beans in grams. *)
Record cup : Type := mkCup { water : Z; beans : Z }.

Definition CUP_SIZES : list (string * cup) :=
  [ ("small", mkCup 120 8);
    ("medium", mkCup 180 12);
    ("large", mkCup 240 16) ].

(** [CUP_SIZES[size]], and [size in CUP_SIZES] when it is [Some]. *)
Definition cup_of (size : string) : option cup :=
  option_map snd (find (fun e => String.eqb (fst e) size) CUP_SIZES).

Definition known_size (size : string) : bool :=
  match cup_of size with
  | Some _ => true
  | None => false
  end.

Record t : Type := mk {
  brand : string;
  waterLevel : Q;
  coffeeBeans : Z;
  isOn : bool;
  cupSize : string;
  maxWaterCapacity : Q;
  maxBeansCapacity : Z
}.

(** [__init__(brand, waterLevel=1.0, coffeeBeans=100, cupSize="medium")]. *)
Definition init (brand : string) (waterLevel : Q) (coffeeBeans : Z)
    (cupSize : string) : t :=
  {| brand := brand;
     waterLevel := Py.max 0 waterLevel;
     coffeeBeans := Z.max 0 coffeeBeans;
     isOn := false;
     cupSize := if known_size cupSize then cupSize else "medium";
     maxWaterCapacity := 2;
     maxBeansCapacity := 500 |}.

Definition set_isOn (b : bool) (s : t) : t :=
  {| brand := brand s;
     waterLevel := waterLevel s;
     coffeeBeans := coffeeBeans s;
     isOn := b;
     cupSize := cupSize s;
     maxWaterCapacity := maxWaterCapacity s;
     maxBeansCapacity := maxBeansCapacity s |}.

Definition set_waterLevel (w : Q) (s : t) : t :=
  {| brand := brand s;
     waterLevel := w;
     coffeeBeans := coffeeBeans s;
     isOn := isOn s;
     cupSize := cupSize s;
     maxWaterCapacity := maxWaterCapacity s;
     maxBeansCapacity := maxBeansCapacity s |}.

Definition set_coffeeBeans (n : Z) (s : t) : t :=
  {| brand := brand s;
     waterLevel := waterLevel s;
     coffeeBeans := n;
     isOn := isOn s;
     cupSize := cupSize s;
     maxWaterCapacity := maxWaterCapacity s;
     maxBeansCapacity := maxBeansCapacity s |}.

Definition set_cupSize (c : string) (s : t) : t :=
  {| brand := brand s;
     waterLevel := waterLevel s;
     coffeeBeans := coffeeBeans s;
     isOn := isOn s;
     cupSize := c;
     maxWaterCapacity := maxWaterCapacity s;
     maxBeansCapacity := maxBeansCapacity s |}.

(** The ["message"] entries of the returned dicts; the values are the ones
    interpolated. *)
Inductive message : Type :=
| TurnedOff
| InvalidCupSize (size : string)
| NotEnoughWater (need have : Q)
| NotEnoughBeans (need have : Z)
| Brewed (size : string) (water_left : Q) (beans_left : Z)
| WaterMustBePositive
| WaterTankFull (added overflow : Q)
| WaterAdded (amount level : Q)
| BeansMustBePositive
| BeanStorageFull (added overflow : Z)
| BeansAdded (amount current : Z).

(** The dict [{"success": ..., "message": ...}]. *)
Record result : Type := mkResult { success : bool; msg : message }.

Definition turnOn (s : t) : bool * t :=
  if negb (isOn s) then (true, set_isOn true s) else (false, s).

Definition turnOff (s : t) : bool * t :=
  if isOn s then (true, set_isOn false s) else (false, s).

Definition brew (s : t) : result * t :=
  if negb (isOn s) then (mkResult false TurnedOff, s)
  else
    match cup_of (cupSize s) with
    | None => (mkResult false (InvalidCupSize (cupSize s)), s)
    | Some c =>
        let required_water := (inject_Z (water c) / 1000)%Q in
        let required_beans := beans c in
        if Py.ltb (waterLevel s) required_water then
          (mkResult false (NotEnoughWater required_water (waterLevel s)), s)
        else if (coffeeBeans s <? required_beans)%Z then
          (mkResult false (NotEnoughBeans required_beans (coffeeBeans s)), s)
        else
          let s' :=
            set_coffeeBeans (coffeeBeans s - required_beans)
              (set_waterLevel (waterLevel s - required_water) s) in
          (mkResult true (Brewed (cupSize s') (waterLevel s') (coffeeBeans s')),
           s')
    end.

Definition refillWater (amount : Py.value) (s : t) : result * t :=
  match Py.as_number amount with
  | None => (mkResult false WaterMustBePositive, s)
  | Some a =>
      if Py.leb a 0 then (mkResult false WaterMustBePositive, s)
      else if Py.gtb (waterLevel s + a) (maxWaterCapacity s) then
        let overflow := ((waterLevel s + a) - maxWaterCapacity s)%Q in
        let s' := set_waterLevel (maxWaterCapacity s) s in
        (mkResult false (WaterTankFull (a - overflow) overflow), s')
      else
        let s' := set_waterLevel (waterLevel s + a) s in
        (mkResult true (WaterAdded a (waterLevel s')), s')
  end.

Definition addBeans (amount : Py.value) (s : t) : result * t :=
  match Py.as_number amount with
  | None => (mkResult false BeansMustBePositive, s)
  | Some a =>
      if Py.leb a 0 then (mkResult false BeansMustBePositive, s)
      else
        let amount := Py.int_of a in
        if (coffeeBeans s + amount >? maxBeansCapacity s)%Z then
          let overflow := ((coffeeBeans s + amount) - maxBeansCapacity s)%Z in
          let s' := set_coffeeBeans (maxBeansCapacity s) s in
          (mkResult false (BeanStorageFull (amount - overflow) overflow), s')
        else
          let s' := set_coffeeBeans (coffeeBeans s + amount) s in
          (mkResult true (BeansAdded amount (coffeeBeans s')), s')
  end.

Definition setCupSize (size : string) (s : t) : bool * t :=
  if known_size size then (true, set_cupSize size s) else (false, s).

Definition canBrew (s : t) : bool :=
  if negb (isOn s) || negb (known_size (cupSize s)) then false
  else
    match cup_of (cupSize s) with
    | None => false
    | Some c =>
        let required_water := (inject_Z (water c) / 1000)%Q in
        let required_beans := beans c in
        Py.geb (waterLevel s) required_water
          && (coffeeBeans s >=? required_beans)%Z
    end.

Section Formatting.

(** Python's [format(x, ".2f")] on a float. *)
Variable fmt_2f : Q -> string.

(** [__str__]. *)
Definition str (s : t) : string :=
  let status := if isOn s then "ON" else "OFF" in
  let can_brew := if canBrew s then "Ready" else "Not Ready" in
  brand s ++ " Coffee Maker - " ++ status ++ " - Water: "
    ++ fmt_2f (waterLevel s) ++ "L - Beans: " ++ Py.str_int (coffeeBeans s)
    ++ "g - Cup: " ++ cupSize s ++ " - " ++ can_brew.

End Formatting.

(** The methods that assign to an attribute, with their arguments. *)
Inductive method : Type :=
| TurnOn
| TurnOff
| Brew
| RefillWater (amount : Py.value)
| AddBeans (amount : Py.value)
| SetCupSize (size : string).

(** Returned values: a [bool] or a result dict. *)
Inductive ret : Type :=
| RBool (b : bool)
| RDict (d : result).

Definition call (m : method) (s : t) : ret * t :=
  match m with
  | TurnOn => let (b, s') := turnOn s in (RBool b, s')
  | TurnOff => let (b, s') := turnOff s in (RBool b, s')
  | Brew => let (d, s') := brew s in (RDict d, s')
  | RefillWater amount => let (d, s') := refillWater amount s in (RDict d, s')
  | AddBeans amount => let (d, s') := addBeans amount s in (RDict d, s')
  | SetCupSize size => let (b, s') := setCupSize size s in (RBool b, s')
  end.

(** The call reports failure: [False], or a dict whose ["success"] is
    [False]. *)
Definition failure (r : ret) : bool :=
  match r with
  | RBool b => negb b
  | RDict d => negb (success d)
  end.

(** Line 75 and line 91 on IEEE binary64, as CPython evaluates them:
    [CUP_SIZES[size]["water"] / 1000.0], then the guard of line 78 and
    [waterLevel - required_water]. *)
Definition required_water_binary64 (size : string) : option float :=
  option_map
    (fun c => PrimFloat.div (PrimFloat.of_uint63 (Uint63.of_Z (water c))) 1000)
    (cup_of size).

Definition water_after_brew_binary64 (waterLevel : float) (size : string)
    : option float :=
  match required_water_binary64 size with
  | None => None
  | Some required_water =>
      if PrimFloat.ltb waterLevel required_water then None
      else Some (PrimFloat.sub waterLevel required_water)
  end.

(** [brew] on IEEE binary64: lines 69 to 97 on the four attributes the
    method reads.  The result is the ["success"] entry of the returned
    dict, and [waterLevel] and [coffeeBeans] after the call. *)
Definition brew_binary64 (isOn : bool) (cupSize : string)
    (waterLevel : float) (coffeeBeans : Z) : bool * (float * Z) :=
  if negb isOn then (false, (waterLevel, coffeeBeans))
  else
    match cup_of cupSize with
    | None => (false, (waterLevel, coffeeBeans))
    | Some c =>
        let required_water :=
          PrimFloat.div (PrimFloat.of_uint63 (Uint63.of_Z (water c))) 1000 in
        let required_beans := beans c in
        if PrimFloat.ltb waterLevel required_water then
          (false, (waterLevel, coffeeBeans))
        else if (coffeeBeans <? required_beans)%Z then
          (false, (waterLevel, coffeeBeans))
        else
          (true,
           (PrimFloat.sub waterLevel required_water,
            (coffeeBeans - required_beans)%Z))
    end.

(** [__str__] names the value [b] of the flag, and not the other value,
    right after the brand. *)
Definition summary_shows (fmt_2f : Q -> string) (s : t) (b : bool) : Prop :=
  Py.startswith (str fmt_2f s) (brand s ++ " Coffee Maker - ON - ") = b /\
  Py.startswith (str fmt_2f s) (brand s ++ " Coffee Maker - OFF - ") = negb b.

(** The dict [getStatus] returns, one field per key. *)
Record status : Type := mkStatus {
  status_brand : string;
  status_isOn : bool;
  status_waterLevel : Q;
  status_coffeeBeans : Z;
  status_cupSize : string;
  status_canBrew : bool
}.

Definition getStatus (s : t) : status :=
  {| status_brand := brand s;
     status_isOn := isOn s;
     status_waterLevel := waterLevel s;
     status_coffeeBeans := coffeeBeans s;
     status_cupSize := cupSize s;
     status_canBrew := canBrew s |}.

(** A sequence of calls on one coffee maker: the returned values in order,
    and the final state. *)
Fixpoint run (ms : list method) (s : t) : list ret * t :=
  match ms with
  | [] => ([], s)
  | m :: ms' =>
      let (r, s1) := call m s in
      let (rs, s2) := run ms' s1 in
      (r :: rs, s2)
  end.

(** The state a coffee maker is in after its constructor and any sequence
    of calls: water and beans are not negative, the cup size is one of
    [CUP_SIZES], and brand and capacities are the constructor's. *)
Definition well_formed (brand0 : string) (s : t) : Prop :=
  (0 <= waterLevel s)%Q /\
  (0 <= coffeeBeans s)%Z /\
  known_size (cupSize s) = true /\
  brand s = brand0 /\
  maxWaterCapacity s = 2%Q /\
  maxBeansCapacity s = 500%Z.

End CoffeeMaker.

(** * smartphone.py *)

Module Smartphone.

Local Open Scope string_scope.

Record t : Type := mk {
  brand : string;
  model : string;
  storageCapacity : Z;
  batteryLevel : Q;
  isLocked : bool;
  _correctPin : string
}.

(** [__init__(brand, model, storageCapacity, batteryLevel=100)]. *)
Definition init (brand model : string) (storageCapacity : Z)
    (batteryLevel : Q) : t :=
  {| brand := brand;
     model := model;
     storageCapacity := storageCapacity;
     batteryLevel := Py.max 0 (Py.min 100 batteryLevel);
     isLocked := true;
     _correctPin := "1234" |}.

Definition set_isLocked (b : bool) (s : t) : t :=
  {| brand := brand s;
     model := model s;
     storageCapacity := storageCapacity s;
     batteryLevel := batteryLevel s;
     isLocked := b;
     _correctPin := _correctPin s |}.

Definition set_batteryLevel (l : Q) (s : t) : t :=
  {| brand := brand s;
     model := model s;
     storageCapacity := storageCapacity s;
     batteryLevel := l;
     isLocked := isLocked s;
     _correctPin := _correctPin s |}.

(** [unlock(pin=None)]. *)
Definition unlock (pin : Py.value) (s : t) : bool * t :=
  let pin :=
    match pin with
    | Py.VNone => Py.VStr "1234"
    | _ => pin
    end in
  if Py.eq_str pin (_correctPin s) then (true, set_isLocked false s)
  else (false, s).

Definition lock (s : t) : bool * t := (true, set_isLocked true s).

Definition charge (amount : Py.value) (s : t) : Py.outcome Q * t :=
  match Py.as_number amount with
  | None =>
      (Py.Raise (Py.ValueError "Charge amount must be a non-negative number"), s)
  | Some a =>
      if Py.ltb a 0 then
        (Py.Raise (Py.ValueError "Charge amount must be a non-negative number"),
         s)
      else
        let s' := set_batteryLevel (Py.min 100 (batteryLevel s + a)) s in
        (Py.Return (batteryLevel s'), s')
  end.

Definition useBattery (amount : Py.value) (s : t) : Py.outcome Q * t :=
  match Py.as_number amount with
  | None =>
      (Py.Raise
         (Py.ValueError "Battery usage amount must be a non-negative number"),
       s)
  | Some a =>
      if Py.ltb a 0 then
        (Py.Raise
           (Py.ValueError "Battery usage amount must be a non-negative number"),
         s)
      else
        let s' := set_batteryLevel (Py.max 0 (batteryLevel s - a)) s in
        (Py.Return (batteryLevel s'), s')
  end.

Definition getSpecs (s : t) : string :=
  "Brand: " ++ brand s ++ ", Model: " ++ model s ++ ", Storage: "
    ++ Py.str_int (storageCapacity s) ++ "GB".

Definition getBatteryStatus (s : t) : string :=
  if Py.gtb (batteryLevel s) 80 then "Excellent"
  else if Py.gtb (batteryLevel s) 50 then "Good"
  else if Py.gtb (batteryLevel s) 20 then "Low"
  else if Py.gtb (batteryLevel s) 10 then "Critical"
  else "Very Low".

Section Formatting.

(** Python's [str(x)] on the battery level, an [int] or a [float]. *)
Variable str_num : Q -> string.

(** [__str__]. *)
Definition str (s : t) : string :=
  let lock_status := if isLocked s then "Locked" else "Unlocked" in
  let battery_status := getBatteryStatus s in
  brand s ++ " " ++ model s ++ " (" ++ Py.str_int (storageCapacity s)
    ++ "GB) - Battery: " ++ str_num (batteryLevel s) ++ "% ("
    ++ battery_status ++ ") - " ++ lock_status.

End Formatting.

(** The methods that assign to an attribute, with their arguments. *)
Inductive method : Type :=
| Unlock (pin : Py.value)
| Lock
| Charge (amount : Py.value)
| UseBattery (amount : Py.value).

(** Returned values: a [bool] or the new battery level. *)
Inductive ret : Type :=
| RBool (b : bool)
| RNum (q : Q).

Definition call (m : method) (s : t) : Py.outcome ret * t :=
  match m with
  | Unlock pin => let (b, s') := unlock pin s in (Py.Return (RBool b), s')
  | Lock => let (b, s') := lock s in (Py.Return (RBool b), s')
  | Charge amount =>
      match charge amount s with
      | (Py.Return l, s') => (Py.Return (RNum l), s')
      | (Py.Raise e, s') => (Py.Raise e, s')
      end
  | UseBattery amount =>
      match useBattery amount s with
      | (Py.Return l, s') => (Py.Return (RNum l), s')
      | (Py.Raise e, s') => (Py.Raise e, s')
      end
  end.

Fixpoint run (ms : list method) (s : t) : list (Py.outcome ret) * t :=
  match ms with
  | [] => ([], s)
  | m :: ms' =>
      let (r, s1) := call m s in
      let (rs, s2) := run ms' s1 in
      (r :: rs, s2)
  end.

(** The call reports failure: it returns [False] or raises. *)
Definition failure (r : Py.outcome ret) : bool :=
  match r with
  | Py.Return (RBool false) => true
  | Py.Return _ => false
  | Py.Raise _ => true
  end.

(** The range documented for [batteryLevel]: 0 to 100. *)
Definition battery_in_range (s : t) : Prop :=
  (0 <= batteryLevel s)%Q /\ (batteryLevel s <= 100)%Q.

(** [__str__] names the value [b] of the flag, and not the other value:
    it ends with the one status word and not with the other. *)
Definition summary_shows (str_num : Q -> string) (s : t) (b : bool) : Prop :=
  Py.endswith (str str_num s) " - Locked" = b /\
  Py.endswith (str str_num s) " - Unlocked" = negb b.

End Smartphone.

(** * A call on an object of any of the five classes *)

Module Entity.

Inductive state : Type :=
| OfBankAccount (s : BankAccount.t)
| OfBook (s : Book.t)
| OfCar (s : Car.t)
| OfCoffeeMaker (s : CoffeeMaker.t)
| OfSmartphone (s : Smartphone.t).

(** A method with its arguments, and the object it is called on. *)
Inductive invocation : Type :=
| OnBankAccount (m : BankAccount.method) (s : BankAccount.t)
| OnBook (m : Book.method) (s : Book.t)
| OnCar (m : Car.method) (s : Car.t)
| OnCoffeeMaker (m : CoffeeMaker.method) (s : CoffeeMaker.t)
| OnSmartphone (m : Smartphone.method) (s : Smartphone.t).

Definition before (i : invocation) : state :=
  match i with
  | OnBankAccount _ s => OfBankAccount s
  | OnBook _ s => OfBook s
  | OnCar _ s => OfCar s
  | OnCoffeeMaker _ s => OfCoffeeMaker s
  | OnSmartphone _ s => OfSmartphone s
  end.

Definition after (i : invocation) : state :=
  match i with
  | OnBankAccount m s => OfBankAccount (snd (BankAccount.call m s))
  | OnBook m s => OfBook (snd (Book.call m s))
  | OnCar m s => OfCar (snd (Car.call m s))
  | OnCoffeeMaker m s => OfCoffeeMaker (snd (CoffeeMaker.call m s))
  | OnSmartphone m s => OfSmartphone (snd (Smartphone.call m s))
  end.

Definition reports_failure (i : invocation) : bool :=
  match i with
  | OnBankAccount m s => BankAccount.failure (fst (BankAccount.call m s))
  | OnBook m s => Book.failure (fst (Book.call m s))
  | OnCar m s => Car.failure (fst (Car.call m s))
  | OnCoffeeMaker m s => CoffeeMaker.failure (fst (CoffeeMaker.call m s))
  | OnSmartphone m s => Smartphone.failure (fst (Smartphone.call m s))
  end.

(** The three calls that are carried out in part: a refill that would
    overflow the tank or the bean storage fills it to its capacity, and a
    drive longer than the fuel allows empties the tank and stops the
    engine.  The second argument is the state such a call leaves. *)
Inductive carried_out_in_part : invocation -> state -> Prop :=
| water_overflow (s : CoffeeMaker.t) (v : Py.value) (a : Q) :
    Py.as_number v = Some a ->
    (0 < a)%Q ->
    (CoffeeMaker.maxWaterCapacity s < CoffeeMaker.waterLevel s + a)%Q ->
    carried_out_in_part
      (OnCoffeeMaker (CoffeeMaker.RefillWater v) s)
      (OfCoffeeMaker
         (CoffeeMaker.set_waterLevel (CoffeeMaker.maxWaterCapacity s) s))
| beans_overflow (s : CoffeeMaker.t) (v : Py.value) (a : Q) :
    Py.as_number v = Some a ->
    (0 < a)%Q ->
    (CoffeeMaker.maxBeansCapacity s
       < CoffeeMaker.coffeeBeans s + Py.int_of a)%Z ->
    carried_out_in_part
      (OnCoffeeMaker (CoffeeMaker.AddBeans v) s)
      (OfCoffeeMaker
         (CoffeeMaker.set_coffeeBeans (CoffeeMaker.maxBeansCapacity s) s))
| out_of_fuel (s : Car.t) (distance : Q) :
    Car.is_engine_on s = true ->
    (0 < distance)%Q ->
    (Car.fuel_level s < distance)%Q ->
    carried_out_in_part
      (OnCar (Car.Drive distance) s)
      (OfCar (Car.set_is_engine_on false (Car.set_fuel_level 0 s))).

(** The report carries a reason: a printed line ([BankAccount]), the
    returned string ([Car]), the ["message"] of the returned dict
    ([CoffeeMaker]) or the message of the raised [ValueError] ([Book],
    [Smartphone]).  A returned [bool] carries none. *)
Definition gives_reason (i : invocation) : bool :=
  match i with
  | OnBankAccount m s =>
      match BankAccount.printed (fst (BankAccount.call m s)) with
      | [] => false
      | _ :: _ => true
      end
  | OnBook m s => Py.raised (fst (Book.call m s))
  | OnCar _ _ => true
  | OnCoffeeMaker m s =>
      match fst (CoffeeMaker.call m s) with
      | CoffeeMaker.RDict _ => true
      | CoffeeMaker.RBool _ => false
      end
  | OnSmartphone m s => Py.raised (fst (Smartphone.call m s))
  end.

(** The methods whose every [return] statement returns a [bool] and
    nothing else. *)
Definition answers_with_bool (i : invocation) : bool :=
  match i with
  | OnBook (Book.CheckOut | Book.ReturnBook) _ => true
  | OnCoffeeMaker
      (CoffeeMaker.TurnOn | CoffeeMaker.TurnOff | CoffeeMaker.SetCupSize _) _ =>
      true
  | OnSmartphone (Smartphone.Unlock _ | Smartphone.Lock) _ => true
  | _ => false
  end.

(** The methods that test the very attribute they assign, and [brew],
    which uses up beans: [checkOut], [returnBook], [turnOn], [turnOff],
    [brew]. *)
Definition tests_what_it_assigns (i : invocation) : bool :=
  match i with
  | OnBook (Book.CheckOut | Book.ReturnBook) _ => true
  | OnCoffeeMaker
      (CoffeeMaker.TurnOn | CoffeeMaker.TurnOff | CoffeeMaker.Brew) _ => true
  | _ => false
  end.

(** Every number among the attributes of the object and the arguments of
    the call. *)
Definition numbers (i : invocation) : list Q :=
  match i with
  | OnBankAccount m s =>
      BankAccount.balance s :: BankAccount.interestRate s ::
      match m with
      | BankAccount.Deposit amount | BankAccount.Withdraw amount => [amount]
      | _ => []
      end
  | OnBook m s =>
      inject_Z (Book.pageCount s) ::
      match m with
      | Book.SetPageCount newCount => Py.numbers_of newCount
      | _ => []
      end
  | OnCar m s =>
      inject_Z (Car.year s) :: Car.fuel_level s ::
      match m with
      | Car.Drive x | Car.Refuel x => [x]
      | _ => []
      end
  | OnCoffeeMaker m s =>
      CoffeeMaker.waterLevel s :: inject_Z (CoffeeMaker.coffeeBeans s) ::
      CoffeeMaker.maxWaterCapacity s ::
      inject_Z (CoffeeMaker.maxBeansCapacity s) ::
      match m with
      | CoffeeMaker.RefillWater amount | CoffeeMaker.AddBeans amount =>
          Py.numbers_of amount
      | _ => []
      end
  | OnSmartphone m s =>
      inject_Z (Smartphone.storageCapacity s) :: Smartphone.batteryLevel s ::
      match m with
      | Smartphone.Unlock x | Smartphone.Charge x | Smartphone.UseBattery x =>
          Py.numbers_of x
      | Smartphone.Lock => []
      end
  end.

(** The call involves moderate numbers only. *)
Definition moderate (i : invocation) : bool :=
  forallb Py.moderate (numbers i).

End Entity.

(** * Facts about the Python built-ins *)

Lemma py_leb_spec (a b : Q) : reflect (a <= b)%Q (Py.leb a b).
Proof.
  unfold Py.leb. destruct (Qle_bool a b) eqn:E; constructor.
  - now apply Qle_bool_iff.
  - intro H. apply Qle_bool_iff in H. congruence.
Qed.

Lemma py_ltb_spec (a b : Q) : reflect (a < b)%Q (Py.ltb a b).
Proof.
  unfold Py.ltb. destruct (Qle_bool b a) eqn:E; simpl; constructor.
  - apply Qle_bool_iff in E. now apply Qle_not_lt.
  - apply Qnot_le_lt. intro H. apply Qle_bool_iff in H. congruence.
Qed.

Lemma py_gtb_spec (a b : Q) : reflect (b < a)%Q (Py.gtb a b).
Proof. unfold Py.gtb. apply py_ltb_spec. Qed.

Lemma py_geb_spec (a b : Q) : reflect (b <= a)%Q (Py.geb a b).
Proof. unfold Py.geb. apply py_leb_spec. Qed.

(** Splits every Python comparison of the goal into its two ordering facts. *)
Ltac py_cases :=
  repeat match goal with
  | |- context [Py.leb ?a ?b] => destruct (py_leb_spec a b)
  | |- context [Py.ltb ?a ?b] => destruct (py_ltb_spec a b)
  | |- context [Py.gtb ?a ?b] => destruct (py_gtb_spec a b)
  | |- context [Py.geb ?a ?b] => destruct (py_geb_spec a b)
  end.

Lemma py_min_le_l (a b : Q) : (Py.min a b <= a)%Q.
Proof. unfold Py.min. py_cases; lra. Qed.

Lemma py_min_ge (a b c : Q) : (c <= a)%Q -> (c <= b)%Q -> (c <= Py.min a b)%Q.
Proof. unfold Py.min. py_cases; lra. Qed.

Lemma py_max_ge_l (a b : Q) : (a <= Py.max a b)%Q.
Proof. unfold Py.max. py_cases; lra. Qed.

Lemma py_max_le (a b c : Q) : (a <= c)%Q -> (b <= c)%Q -> (Py.max a b <= c)%Q.
Proof. unfold Py.max. py_cases; lra. Qed.

Lemma py_int_of_nonneg (q : Q) : (0 <= q)%Q -> (0 <= Py.int_of q)%Z.
Proof.
  destruct q as [n d]. unfold Qle, Py.int_of. simpl. intros H.
  apply Z.quot_pos; lia.
Qed.

Lemma string_app_assoc (a b c : string) :
  ((a ++ b) ++ c = a ++ (b ++ c))%string.
Proof.
  induction a as [|x a IH]; simpl; [reflexivity | now rewrite IH].
Qed.

Lemma rev_onto_app (a b acc : string) :
  Py.rev_onto (a ++ b) acc = Py.rev_onto b (Py.rev_onto a acc).
Proof.
  revert acc. induction a as [|c a IH]; intros acc; simpl.
  - reflexivity.
  - apply IH.
Qed.

Lemma rev_onto_acc (a acc : string) :
  Py.rev_onto a acc = (Py.reverse a ++ acc)%string.
Proof.
  unfold Py.reverse. revert acc.
  induction a as [|c a IH]; intros acc; simpl.
  - reflexivity.
  - rewrite IH. rewrite (IH (String c EmptyString)).
    rewrite string_app_assoc. reflexivity.
Qed.

Lemma reverse_app (a b : string) :
  Py.reverse (a ++ b) = (Py.reverse b ++ Py.reverse a)%string.
Proof.
  unfold Py.reverse at 1. rewrite rev_onto_app. apply rev_onto_acc.
Qed.

Lemma prefix_app (p a b : string) :
  String.prefix (p ++ a) (p ++ b) = String.prefix a b.
Proof.
  induction p as [|c p IH]; simpl.
  - reflexivity.
  - destruct (Ascii.ascii_dec c c) as [_|N]; [exact IH | now elim N].
Qed.

(** * IEEE binary64: subtraction below a bound, multiplication by one

    [SpecFloat] gives every binary64 operation on sign, mantissa and
    exponent; the lemmas of this section read off it what the guards of
    [withdraw], [drive] and [brew] ensure. *)

Section Binary64.

Local Open Scope Z_scope.

(** The number of binary digits of a mantissa bounds it from both sides. *)
Lemma digits2_pos_bounds (m : positive) :
  2 ^ (Zpos (digits2_pos m) - 1) <= Zpos m < 2 ^ Zpos (digits2_pos m).
Proof.
  induction m as [m IH|m IH|]; simpl digits2_pos.
  - rewrite Pos2Z.inj_succ.
    replace (Z.succ (Zpos (digits2_pos m)) - 1)
      with (Z.succ (Zpos (digits2_pos m) - 1)) by lia.
    rewrite !Z.pow_succ_r by lia. lia.
  - rewrite Pos2Z.inj_succ.
    replace (Z.succ (Zpos (digits2_pos m)) - 1)
      with (Z.succ (Zpos (digits2_pos m) - 1)) by lia.
    rewrite !Z.pow_succ_r by lia. lia.
  - simpl. lia.
Qed.

(** A canonical mantissa has at most 53 digits, and exactly 53 above the
    smallest exponent. *)
Lemma bounded_facts (m : positive) (e : Z) :
  bounded prec emax m e = true ->
  -1074 <= e /\ Zpos m < 2 ^ 53 /\ (-1074 < e -> 2 ^ 52 <= Zpos m).
Proof.
  unfold bounded, canonical_mantissa, fexp, emin, prec, emax.
  intros H. apply andb_prop in H. destruct H as [H _].
  apply Z.eqb_eq in H.
  pose proof (digits2_pos_bounds m) as [Hlo Hhi].
  set (d := Zpos (digits2_pos m)) in *.
  assert (Hd : 0 < d) by (unfold d; lia).
  assert (Hd53 : d <= 53) by lia.
  split; [lia|]. split.
  - apply Z.lt_le_trans with (2 ^ d); [exact Hhi|].
    apply Z.pow_le_mono_r; lia.
  - intros He. assert (d = 53) by lia. 
    replace 52 with (d - 1) by lia. exact Hlo.
Qed.

(** Aligning a mantissa to a smaller exponent multiplies it by a power of
    two. *)
Lemma iter_xO (m d : positive) :
  Zpos (Pos.iter xO m d) = Zpos m * 2 ^ Zpos d.
Proof.
  revert m. induction d as [|d IH] using Pos.peano_ind; intros m.
  - simpl. lia.
  - rewrite Pos.iter_succ.
    rewrite Pos2Z.inj_xO, IH, Pos2Z.inj_succ, Z.pow_succ_r by lia. lia.
Qed.

Lemma shl_align_value (m : positive) (e ez : Z) :
  ez <= e ->
  Zpos (fst (shl_align m e ez)) = Zpos m * 2 ^ (e - ez).
Proof.
  intros H. unfold shl_align.
  destruct (ez - e) as [|p|p] eqn:E.
  - assert (e - ez = 0) by lia. rewrite H0. simpl. lia.
  - lia.
  - simpl fst. rewrite iter_xO. f_equal. f_equal. lia.
Qed.

(** The order of two canonical finite floats, read on their aligned
    mantissas. *)
Lemma finite_le_aligned (m1 m2 : positive) (e1 e2 : Z) :
  bounded prec emax m1 e1 = true ->
  bounded prec emax m2 e2 = true ->
  e1 < e2 \/ (e1 = e2 /\ (m1 <= m2)%positive) ->
  Zpos m1 * 2 ^ (e1 - Z.min e1 e2) <= Zpos m2 * 2 ^ (e2 - Z.min e1 e2).
Proof.
  intros B1 B2 H.
  destruct (bounded_facts m1 e1 B1) as (L1 & U1 & N1).
  destruct (bounded_facts m2 e2 B2) as (L2 & U2 & N2).
  destruct H as [E|[E H]].
  - rewrite Z.min_l by lia. rewrite Z.sub_diag. simpl (2 ^ 0).
    assert (2 ^ 52 <= Zpos m2) by (apply N2; lia).
    assert (2 ^ 1 <= 2 ^ (e2 - e1)) by (apply Z.pow_le_mono_r; lia).
    change (2 ^ 53) with (2 ^ 52 * 2 ^ 1) in U1.
    nia.
  - subst e2. rewrite Z.min_id, Z.sub_diag. simpl. lia.
Qed.

(** Rounding never turns a mantissa that is not negative into a negative
    one. *)
Lemma shr_1_nonneg (mrs : shr_record) :
  0 <= shr_m mrs -> 0 <= shr_m (shr_1 mrs).
Proof.
  destruct mrs as [m r s]. simpl. intros H.
  destruct m as [|p|p]; simpl; try lia.
  - destruct p; simpl; lia.
Qed.

Lemma iter_shr_1_nonneg (p : positive) (mrs : shr_record) :
  0 <= shr_m mrs -> 0 <= shr_m (iter_pos shr_1 p mrs).
Proof.
  revert mrs. induction p as [p IH|p IH|]; intros mrs H; simpl.
  - apply IH, IH. now apply shr_1_nonneg.
  - apply IH, IH. exact H.
  - now apply shr_1_nonneg.
Qed.

Lemma shr_fexp_nonneg (m e : Z) (l : location) :
  0 <= m -> 0 <= shr_m (fst (shr_fexp prec emax m e l)).
Proof.
  intros H. unfold shr_fexp, shr.
  assert (H0 : 0 <= shr_m (shr_record_of_loc m l))
    by (destruct l as [|[ | | ]]; simpl; exact H).
  destruct (fexp prec emax (Zdigits2 m + e) - e); simpl; auto.
  now apply iter_shr_1_nonneg.
Qed.

Lemma round_nearest_even_nonneg (m : Z) (l : location) :
  0 <= m -> 0 <= round_nearest_even m l.
Proof.
  intros H. destruct l as [|[ | | ]]; simpl; try lia.
  destruct (Z.even m); lia.
Qed.

Lemma binary_round_aux_nonneg (m e : Z) (l : location) :
  0 <= m -> Py.nonneg_sf (binary_round_aux prec emax false m e l).
Proof.
  intros H. unfold binary_round_aux.
  pose proof (shr_fexp_nonneg m e l H) as H1.
  destruct (shr_fexp prec emax m e l) as [mrs' e']. simpl in H1.
  pose proof (shr_fexp_nonneg
                (round_nearest_even (shr_m mrs') (loc_of_shr_record mrs'))
                e' loc_Exact
                (round_nearest_even_nonneg _ _ H1)) as H2.
  destruct (shr_fexp prec emax _ e' loc_Exact) as [mrs'' e'']. simpl in H2.
  destruct (shr_m mrs'') as [|p|p]; simpl; auto; try lia.
  destruct (_ <=? _); simpl; reflexivity.
Qed.

Lemma binary_normalize_nonneg (m e : Z) :
  0 <= m -> Py.nonneg_sf (binary_normalize prec emax m e false).
Proof.
  intros H. destruct m as [|p|p]; simpl; auto; try lia.
  unfold binary_round.
  destruct (shl_align p e _) as [mz ez].
  apply binary_round_aux_nonneg. lia.
Qed.

Lemma nonneg_sf_leb (x : spec_float) :
  Py.nonneg_sf x -> SFleb (S754_zero false) x = true.
Proof.
  destruct x as [s|s| |s m e]; simpl; intros H; try subst; auto.
Qed.

(** What [<=] says of two finite floats. *)
Lemma SFcompare_finite_le (s1 s2 : bool) (m1 m2 : positive) (e1 e2 : Z) :
  SFleb (S754_finite s1 m1 e1) (S754_finite s2 m2 e2) = true ->
  match s1, s2 with
  | true, false => True
  | false, true => False
  | false, false => e1 < e2 \/ (e1 = e2 /\ (m1 <= m2)%positive)
  | true, true => e2 < e1 \/ (e2 = e1 /\ (m2 <= m1)%positive)
  end.
Proof.
  unfold SFleb, SFcompare.
  destruct s1, s2; try exact (fun _ => I); try discriminate.
  - change (PosDef.Pos.compare_cont Eq m1 m2) with (Pos.compare m1 m2).
    destruct (Z.compare_spec e1 e2) as [E|E|E]; simpl; try discriminate.
    + destruct (Pos.compare_spec m1 m2) as [F|F|F]; simpl; try discriminate;
        intros _; right; split; auto; lia.
    + intros _. left. lia.
  - change (PosDef.Pos.compare_cont Eq m1 m2) with (Pos.compare m1 m2).
    destruct (Z.compare_spec e1 e2) as [E|E|E]; simpl; try discriminate.
    + destruct (Pos.compare_spec m1 m2) as [F|F|F]; simpl; try discriminate;
        intros _; right; split; auto; lia.
    + intros _. left. lia.
Qed.

(** [y <= x], with [y] not an infinity, makes [x - y] zero or above. *)
Lemma SFsub_nonneg (x y : spec_float) :
  SpecFloat.valid_binary prec emax x = true ->
  SpecFloat.valid_binary prec emax y = true ->
  SFleb y x = true ->
  match y with S754_infinity _ => False | _ => True end ->
  Py.nonneg_sf (SFsub prec emax x y).
Proof.
  intros Vx Vy Hle Hy.
  destruct y as [sy|sy| |sy my ey]; try contradiction;
    destruct x as [sx|sx| |sx mx ex];
    try (unfold SFleb in Hle; simpl in Hle; discriminate Hle).
  - destruct sx, sy; exact I.
  - unfold SFleb in Hle; simpl in Hle; simpl.
    destruct sx; [discriminate | reflexivity].
  - unfold SFleb in Hle; simpl in Hle; simpl.
    destruct sx; [discriminate | reflexivity].
  - unfold SFleb in Hle; simpl in Hle; simpl.
    destruct sy; [reflexivity | discriminate].
  - unfold SFleb in Hle; simpl in Hle; simpl.
    destruct sx; [discriminate | reflexivity].
  - apply SFcompare_finite_le in Hle. simpl in Vx, Vy.
    unfold SFsub. apply binary_normalize_nonneg.
    change IntDef.Z.min with Z.min.
    rewrite !shl_align_value by lia.
    set (A := Z.pos mx * 2 ^ (ex - Z.min ex ey)).
    set (B := Z.pos my * 2 ^ (ey - Z.min ex ey)).
    assert (HA : 0 < A).
    { unfold A. apply Z.mul_pos_pos; [lia|]. apply Z.pow_pos_nonneg; lia. }
    assert (HB : 0 < B).
    { unfold B. apply Z.mul_pos_pos; [lia|]. apply Z.pow_pos_nonneg; lia. }
    destruct sy, sx; unfold cond_Zopp; try contradiction; try lia.
    + pose proof (finite_le_aligned mx my ex ey Vx Vy Hle). fold A B in H. lia.
    + pose proof (finite_le_aligned my mx ey ex Vy Vx Hle) as H.
      rewrite (Z.min_comm ey ex) in H. fold A B in H. lia.
Qed.

(** Without NaN, [x < y] is false exactly when [y <= x]. *)
Lemma SFltb_false_leb (x y : spec_float) :
  x <> S754_nan -> y <> S754_nan -> SFltb x y = false -> SFleb y x = true.
Proof.
  intros Hx Hy. unfold SFltb, SFleb.
  destruct x as [sx|sx| |sx mx ex]; try congruence;
    destruct y as [sy|sy| |sy my ey]; try congruence; simpl;
    try (destruct sx; simpl; congruence);
    try (destruct sy; simpl; congruence);
    try (destruct sx, sy; simpl; congruence).
  change (PosDef.Pos.compare_cont Eq mx my) with (Pos.compare mx my).
  change (PosDef.Pos.compare_cont Eq my mx) with (Pos.compare my mx).
  destruct sx, sy; try congruence;
    destruct (Z.compare_spec ex ey), (Z.compare_spec ey ex); try lia;
    try congruence; subst;
    destruct (Pos.compare_spec mx my), (Pos.compare_spec my mx); simpl;
    try lia; congruence.
Qed.

Lemma SFleb_not_nan (x y : spec_float) :
  SFleb x y = true -> x <> S754_nan /\ y <> S754_nan.
Proof.
  unfold SFleb. destruct x, y; simpl; try discriminate; split; discriminate.
Qed.

Lemma Prim2SF_zero : Prim2SF 0%float = S754_zero false.
Proof. reflexivity. Qed.

(** [is_nan], [is_infinity] and [is_finite] on the decoded float. *)
Lemma is_nan_false (x : float) :
  PrimFloat.is_nan x = false -> Prim2SF x <> S754_nan.
Proof.
  unfold PrimFloat.is_nan. rewrite eqb_spec. intros H E. rewrite E in H.
  discriminate H.
Qed.

Lemma is_infinity_false (x : float) :
  PrimFloat.is_infinity x = false ->
  match Prim2SF x with S754_infinity _ => False | _ => True end.
Proof.
  unfold PrimFloat.is_infinity. rewrite eqb_spec, abs_spec.
  destruct (Prim2SF x); simpl; auto. discriminate.
Qed.

Lemma is_finite_true (x : float) :
  PrimFloat.is_finite x = true ->
  PrimFloat.is_nan x = false /\ PrimFloat.is_infinity x = false.
Proof.
  unfold PrimFloat.is_finite. intros H. apply negb_true_iff in H.
  now apply orb_false_iff in H.
Qed.

(** On binary64: [y <= x], with [y] not an infinity, gives [0 <= x - y]. *)
Lemma float_sub_nonneg (x y : float) :
  PrimFloat.leb y x = true ->
  PrimFloat.is_infinity y = false ->
  PrimFloat.leb 0 (PrimFloat.sub x y) = true.
Proof.
  rewrite !leb_spec, sub_spec, Prim2SF_zero. intros Hle Hy.
  apply nonneg_sf_leb. apply SFsub_nonneg.
  - apply Prim2SF_valid.
  - apply Prim2SF_valid.
  - exact Hle.
  - now apply is_infinity_false.
Qed.

(** On binary64: without NaN, [x < y] false gives [y <= x]. *)
Lemma float_ltb_false_leb (x y : float) :
  PrimFloat.is_nan x = false -> PrimFloat.is_nan y = false ->
  PrimFloat.ltb x y = false -> PrimFloat.leb y x = true.
Proof.
  rewrite ltb_spec, leb_spec. intros Hx Hy.
  apply SFltb_false_leb; now apply is_nan_false.
Qed.

Lemma SFeqb_refl (x : spec_float) : x <> S754_nan -> SFeqb x x = true.
Proof.
  unfold SFeqb. destruct x as [s|s| |s m e]; simpl; try congruence; intros _.
  - destruct s; reflexivity.
  - change (PosDef.Pos.compare_cont Eq m m) with (Pos.compare m m).
    rewrite Z.compare_refl, Pos.compare_refl. destruct s; reflexivity.
Qed.

(** On binary64: a comparison that holds has no NaN operand. *)
Lemma float_leb_not_nan (x y : float) :
  PrimFloat.leb x y = true ->
  PrimFloat.is_nan x = false /\ PrimFloat.is_nan y = false.
Proof.
  rewrite leb_spec. intros H. apply SFleb_not_nan in H. destruct H as [Hx Hy].
  unfold PrimFloat.is_nan. rewrite !eqb_spec, !SFeqb_refl by assumption.
  split; reflexivity.
Qed.

(** The number of binary digits is the only one with these bounds. *)
Lemma digits2_pos_unique (m : positive) (d : Z) :
  2 ^ (d - 1) <= Zpos m < 2 ^ d -> Zpos (digits2_pos m) = d.
Proof.
  intros [Hlo Hhi]. pose proof (digits2_pos_bounds m) as [Klo Khi].
  set (k := Zpos (digits2_pos m)) in *.
  assert (0 < k) by (unfold k; lia).
  destruct (Z.lt_trichotomy k d) as [L|[E|G]]; [|exact E|].
  - assert (2 ^ k <= 2 ^ (d - 1)) by (apply Z.pow_le_mono_r; lia). lia.
  - assert (0 <= d \/ d < 0) as [P|N] by lia.
    + assert (2 ^ d <= 2 ^ (k - 1)) by (apply Z.pow_le_mono_r; lia). lia.
    + rewrite (Z.pow_neg_r 2 d) in Hhi by lia. lia.
Qed.

Lemma mul_two_52 (m : positive) :
  (m * 4503599627370496)%positive = Pos.iter xO m 52.
Proof. rewrite Pos.mul_comm. reflexivity. Qed.

(** Rounding a canonical mantissa shifted by 52 digits gives it back. *)
Lemma binary_round_aux_one (s : bool) (m : positive) (e : Z) :
  bounded prec emax m e = true ->
  binary_round_aux prec emax s (Zpos (m * 4503599627370496)) (e + -52) loc_Exact
  = S754_finite s m e.
Proof.
  intros B.
  assert (C : fexp prec emax (Zpos (digits2_pos m) + e) = e).
  { unfold bounded, canonical_mantissa in B. apply andb_prop in B.
    destruct B as [B _]. now apply Z.eqb_eq in B. }
  assert (E : e <= emax - prec).
  { unfold bounded in B. apply andb_prop in B. destruct B as [_ B].
    now apply Z.leb_le in B. }
  assert (D : Zdigits2 (Zpos (m * 4503599627370496))
              = Zpos (digits2_pos m) + 52).
  { simpl Zdigits2. apply digits2_pos_unique.
    pose proof (digits2_pos_bounds m) as [Klo Khi].
    rewrite Pos2Z.inj_mul. change (Zpos 4503599627370496) with (2 ^ 52).
    replace (Zpos (digits2_pos m) + 52 - 1)
      with ((Zpos (digits2_pos m) - 1) + 52) by lia.
    rewrite !Z.pow_add_r by lia. nia. }
  unfold binary_round_aux, shr_fexp.
  rewrite D.
  replace (Zpos (digits2_pos m) + 52 + (e + -52))
    with (Zpos (digits2_pos m) + e) by lia.
  rewrite C. replace (e - (e + -52)) with 52 by lia.
  rewrite mul_two_52.
  change (shr (shr_record_of_loc (Zpos (Pos.iter xO m 52)) loc_Exact)
            (e + -52) 52)
    with ({| shr_m := Zpos m; shr_r := false; shr_s := false |}, e + -52 + 52).
  cbv beta iota zeta.
  change (loc_of_shr_record {| shr_m := Zpos m; shr_r := false; shr_s := false |})
    with loc_Exact.
  cbn [shr_m round_nearest_even Zdigits2].
  replace (e + -52 + 52) with e by lia.
  rewrite C, Z.sub_diag.
  cbn [shr shr_record_of_loc shr_m].
  apply Z.leb_le in E. rewrite E. reflexivity.
Qed.

Lemma SFmul_one (x : spec_float) :
  SpecFloat.valid_binary prec emax x = true ->
  SFmul prec emax x (Prim2SF 1) = x.
Proof.
  intros V. change (Prim2SF 1) with (S754_finite false 4503599627370496 (-52)).
  destruct x as [s|s| |s m e]; simpl.
  - destruct s; reflexivity.
  - destruct s; reflexivity.
  - reflexivity.
  - rewrite xorb_false_r. apply binary_round_aux_one. exact V.
Qed.

(** On binary64: [x * 1.0] is [x], for every float, NaN and the
    infinities included. *)
Lemma float_mul_one (x : float) : PrimFloat.mul x 1 = x.
Proof.
  apply Prim2SF_inj. rewrite mul_spec. apply SFmul_one, Prim2SF_valid.
Qed.

End Binary64.

(** * bank_account.py: withdrawals and closed accounts *)

Section BankAccountFacts.

Import BankAccount.

(** A call on a closed account leaves the account as it is, and [deposit]
    and [withdraw] answer [False]. *)
Lemma call_closed (m : method) (s : t) :
  isActive s = false ->
  snd (call m s) = s /\ refused m (fst (call m s)).
Proof.
  intros H. destruct m; simpl;
    unfold deposit, withdraw, calculateInterest, closeAccount, getBalance;
    rewrite ?H; simpl; auto.
  split; [|exact I]. destruct s; simpl in *; subst; reflexivity.
Qed.

Lemma run_closed (ms : list method) (s : t) :
  isActive s = false ->
  snd (run ms s) = s /\ Forall2 refused ms (fst (run ms s)).
Proof.
  intros H. induction ms as [|m ms IH]; simpl.
  - split; [reflexivity | constructor].
  - destruct (call_closed m s H) as [Hs Hr].
    destruct (call m s) as [r s1]. simpl in Hs, Hr. subst s1.
    destruct IH as [IHs IHr].
    destruct (run ms s) as [rs s2]. simpl in *.
    split; [assumption | constructor; assumption].
Qed.

(** On binary64, [withdraw] with a finite amount (neither NaN nor an
    infinity) keeps a balance that is at least zero at least zero. *)
Lemma withdraw_binary64_keeps_nonneg (amount : float) (isActive : bool)
    (balance : float) :
  PrimFloat.is_finite amount = true ->
  PrimFloat.leb 0 balance = true ->
  PrimFloat.leb 0 (snd (withdraw_binary64 amount isActive balance)) = true.
Proof.
  intros Hfin Hb. unfold withdraw_binary64.
  destruct isActive; simpl; [|exact Hb].
  destruct (PrimFloat.leb amount 0); simpl; [exact Hb|].
  destruct (PrimFloat.ltb balance amount) eqn:L; simpl; [exact Hb|].
  destruct (is_finite_true amount Hfin) as [Hnan Hinf].
  destruct (float_leb_not_nan 0 balance Hb) as [_ Hbn].
  apply float_sub_nonneg; [|exact Hinf].
  now apply float_ltb_false_leb.
Qed.

(** C5, at the input where the code breaks the claim: on an open account
    with balance 1000.0, [withdraw(float('nan'))] passes the guards of
    lines 65 and 69, returns [True] and leaves the balance NaN, which is
    not at least zero. *)
Theorem withdraw_nan_leaves_balance_nan :
  let r := withdraw_binary64 PrimFloat.nan true 1000 in
  PrimFloat.leb 0 1000 = true /\
  fst r = true /\
  PrimFloat.is_nan (snd r) = true /\
  PrimFloat.leb 0 (snd r) = false.
Proof.
  vm_compute. split; [reflexivity|]. split; [reflexivity|].
  split; reflexivity.
Qed.

(** C10. Closing is irreversible and a closed account is frozen: no call
    makes [isActive] true again, and after [closeAccount] every sequence of
    calls leaves the account exactly as [closeAccount] left it (so the
    balance is the one before closing) while every [deposit] and [withdraw]
    of the sequence returns [False]. *)
Theorem closed_account_is_frozen :
  (forall (m : method) (s : t),
      isActive s = false -> isActive (snd (call m s)) = false) /\
  (forall (ms : list method) (s : t),
      let s0 := snd (closeAccount s) in
      isActive s0 = false /\
      snd (run ms s0) = s0 /\
      balance (snd (run ms s0)) = balance s /\
      Forall2 refused ms (fst (run ms s0))).
Proof.
  split.
  - intros m s H. destruct (call_closed m s H) as [Hs _]. now rewrite Hs.
  - intros ms s s0.
    assert (H0 : isActive s0 = false) by reflexivity.
    destruct (run_closed ms s0 H0) as [Hs Hr].
    repeat split; try assumption.
    rewrite Hs. reflexivity.
Qed.

Lemma closed_account_is_frozen_witness :
  isActive
    (snd (call (Deposit 100)
            (snd (closeAccount (init "ACC001" "John Doe" 1000 0.02)))))
  = false.
Proof.
  apply (proj1 closed_account_is_frozen). reflexivity.
Defined.

End BankAccountFacts.

(** * smartphone.py: battery range, PIN, the documented example *)

Section SmartphoneFacts.

Import Smartphone.

Lemma init_battery_in_range (brand model : string) (storageCapacity : Z)
    (batteryLevel : Q) :
  battery_in_range (init brand model storageCapacity batteryLevel).
Proof.
  unfold battery_in_range, init; simpl. split.
  - apply py_max_ge_l.
  - apply py_max_le; [lra | apply py_min_le_l].
Qed.

Lemma call_battery_in_range (m : method) (s : t) :
  battery_in_range s -> battery_in_range (snd (call m s)).
Proof.
  unfold battery_in_range. intros [Hlo Hhi].
  destruct m as [pin| |amount|amount]; simpl.
  - unfold unlock. destruct (Py.eq_str _ _); simpl; auto.
  - auto.
  - unfold charge. destruct (Py.as_number amount) as [a|]; simpl; auto.
    destruct (py_ltb_spec a 0); simpl; auto.
    split; [apply py_min_ge; lra | apply py_min_le_l].
  - unfold useBattery. destruct (Py.as_number amount) as [a|]; simpl; auto.
    destruct (py_ltb_spec a 0); simpl; auto.
    split; [apply py_max_ge_l | apply py_max_le; lra].
Qed.

Lemma call_keeps_pin (m : method) (s : t) :
  _correctPin (snd (call m s)) = _correctPin s.
Proof.
  destruct m as [pin| |amount|amount]; simpl.
  - unfold unlock. destruct (Py.eq_str _ _); reflexivity.
  - reflexivity.
  - unfold charge. destruct (Py.as_number amount) as [a|]; simpl; auto.
    destruct (Py.ltb a 0); reflexivity.
  - unfold useBattery. destruct (Py.as_number amount) as [a|]; simpl; auto.
    destruct (Py.ltb a 0); reflexivity.
Qed.

(** An invariant of the state that every call keeps holds after every
    sequence of calls. *)
Lemma run_invariant (P : t -> Prop) :
  (forall m s, P s -> P (snd (call m s))) ->
  forall ms s, P s -> P (snd (run ms s)).
Proof.
  intros Hstep ms. induction ms as [|m ms IH]; intros s Hs; simpl.
  - exact Hs.
  - specialize (Hstep m s Hs). destruct (call m s) as [r s1]. simpl in Hstep.
    specialize (IH s1 Hstep). destruct (run ms s1) as [rs s2]. exact IH.
Qed.

(** The battery level is within 0 to 100 after the constructor and after
    every sequence of calls, for every constructor argument and every
    method input. *)
Lemma battery_always_in_range (brand model : string) (storageCapacity : Z)
    (batteryLevel : Q) (ms : list method) :
  battery_in_range
    (snd (run ms (init brand model storageCapacity batteryLevel))).
Proof.
  apply (run_invariant battery_in_range call_battery_in_range).
  apply init_battery_in_range.
Qed.

(** C8. On a phone whose battery level is 85, [useBattery(25)] leaves 60
    and the following [charge(40)] leaves 100: the level [min] lets
    through, not 60 + 40 exceeded. *)
Theorem use_25_then_charge_40_from_85 (s : t) :
  (batteryLevel s == 85)%Q ->
  let s1 := snd (useBattery (Py.VInt 25) s) in
  let s2 := snd (charge (Py.VInt 40) s1) in
  (batteryLevel s1 == 60)%Q /\
  batteryLevel s2 = 100%Q /\
  fst (charge (Py.VInt 40) s1) = Py.Return 100%Q.
Proof.
  intros H. unfold useBattery, charge; simpl.
  unfold Py.max, Py.min, inject_Z; simpl.
  destruct (py_gtb_spec (batteryLevel s - 25) 0) as [Hpos|Hneg]; simpl;
    [|lra].
  destruct (py_ltb_spec (batteryLevel s - 25 + 40) 100) as [Hlt|Hge]; simpl;
    [lra|].
  repeat split. lra.
Qed.

Lemma use_25_then_charge_40_from_85_witness :
  batteryLevel
    (snd (charge (Py.VInt 40)
            (snd (useBattery (Py.VInt 25) (init "Apple" "iPhone 14" 256 85)))))
  = 100%Q.
Proof.
  apply (use_25_then_charge_40_from_85 (init "Apple" "iPhone 14" 256 85)).
  reflexivity.
Defined.

(** C9. In every state a phone reaches from its constructor, [unlock()]
    without a PIN returns [True] and clears [isLocked]: the omitted PIN
    becomes "1234", which is what [_correctPin] holds. *)
Theorem unlock_without_pin_succeeds (brand model : string)
    (storageCapacity : Z) (batteryLevel : Q) (ms : list method) :
  let s := snd (run ms (init brand model storageCapacity batteryLevel)) in
  _correctPin s = "1234"%string /\
  unlock Py.VNone s = (true, set_isLocked false s) /\
  isLocked (snd (unlock Py.VNone s)) = false.
Proof.
  intros s.
  assert (Hpin : _correctPin s = "1234"%string).
  { unfold s.
    apply (run_invariant (fun s => _correctPin s = "1234"%string)).
    - intros m s0 H0. now rewrite call_keeps_pin.
    - reflexivity. }
  split; [exact Hpin|].
  unfold unlock. simpl. rewrite Hpin. simpl. split; reflexivity.
Qed.

End SmartphoneFacts.

(** * car.py: the fuel range *)

Section CarFacts.

Import Car.

Lemma call_fuel_in_range (m : method) (s : t) :
  fuel_in_range s -> fuel_in_range (snd (call m s)).
Proof.
  unfold fuel_in_range. intros [Hlo Hhi].
  destruct m as [| |distance|amount]; simpl.
  - unfold start_engine. destruct (Py.gtb _ _); simpl; auto.
  - auto.
  - unfold drive. destruct (is_engine_on s); simpl; auto.
    py_cases; simpl; split; lra.
  - unfold refuel. destruct (py_leb_spec amount 0); simpl; auto.
    split; [apply py_min_ge; lra | apply py_min_le_l].
Qed.

(** A car constructed with a fuel level within 0.0 to 100.0 keeps it
    there through every sequence of calls, distances and amounts being
    numbers (NaN is none). *)
Lemma fuel_stays_in_range (ms : list method) (s : t) :
  fuel_in_range s -> fuel_in_range (snd (run ms s)).
Proof.
  revert s. induction ms as [|m ms IH]; intros s Hs; simpl.
  - exact Hs.
  - pose proof (call_fuel_in_range m s Hs) as H1.
    destruct (call m s) as [r s1]. simpl in H1.
    specialize (IH s1 H1). destruct (run ms s1) as [rs s2]. exact IH.
Qed.

Lemma fuel_stays_in_range_witness :
  fuel_in_range
    (snd (run [StartEngine; Drive 25; Drive 130; Refuel 20; Refuel 500]
            (init "Toyota" "Camry" 2023 "Blue" 100 false))).
Proof.
  apply fuel_stays_in_range. unfold fuel_in_range; simpl. split; lra.
Defined.

(** C4, at the input where the code leaves the range: the constructor
    stores [fuel_level=150.0] as it is, so the car starts outside 0.0 to
    100.0, before any method is called. *)
Theorem init_stores_fuel_out_of_range :
  let s := init "Toyota" "Camry" 2023 "Blue" 150 false in
  fuel_level s = 150%Q /\
  ~ fuel_in_range (snd (run [] s)).
Proof.
  simpl. split; [reflexivity|].
  unfold fuel_in_range; simpl. intros [_ H]. lra.
Qed.

(** C3, at the input where the code lowers the quantity: on the car
    constructed with [fuel_level=150.0], [refuel(10.0)] returns the
    "Refueled" string and the fuel level drops from 150 to 100. *)
Theorem refuel_lowers_fuel_above_range :
  let s := init "Toyota" "Camry" 2023 "Blue" 150 false in
  refuel 10 s = (Refueled 100, set_fuel_level 100 s) /\
  (fuel_level (snd (refuel 10 s)) < fuel_level s)%Q.
Proof.
  simpl. split; [reflexivity|]. vm_compute. reflexivity.
Qed.

End CarFacts.

(** * Deposits, charges and refills *)



(** Above the capacity the constructor lets in, a refill lowers the
    level: a coffee maker constructed with 5.0 L holds 5.0 L in a 2.0 L
    tank, and [refillWater(1.0)] leaves 2.0 L. *)
Lemma refill_lowers_water_above_capacity :
  let s := CoffeeMaker.init "Keurig" 5 150 "medium" in
  (CoffeeMaker.maxWaterCapacity s < CoffeeMaker.waterLevel s)%Q /\
  snd (CoffeeMaker.refillWater (Py.VFloat 1) s) = CoffeeMaker.set_waterLevel 2 s.
Proof.
  simpl. split; reflexivity.
Qed.

(** * Withdrawals and usage *)

(** C1, as the claim states it, fails: with 10 left in the battery,
    [useBattery(25)] raises nothing, returns the new level 0 and changes
    [batteryLevel]; with 10 units of fuel, [drive(25)] empties the tank and
    stops the engine. *)
Lemma shortfall_is_not_always_rejected :
  let p := Smartphone.init "Apple" "iPhone 14" 256 10 in
  let c := Car.init "Toyota" "Camry" 2023 "Blue" 10 true in
  (Smartphone.batteryLevel p < 25)%Q /\
  Smartphone.useBattery (Py.VInt 25) p
    = (Py.Return 0%Q, Smartphone.set_batteryLevel 0 p) /\
  snd (Smartphone.useBattery (Py.VInt 25) p) <> p /\
  (Car.fuel_level c < 25)%Q /\
  snd (Car.drive 25 c) <> c.
Proof.
  simpl. repeat split; try reflexivity; try discriminate.
Qed.

(** The water a cup needs is a finite float, whatever its size. *)
Lemma required_water_is_finite (size : string) (c : CoffeeMaker.cup) :
  CoffeeMaker.cup_of size = Some c ->
  PrimFloat.is_finite
    (PrimFloat.div (PrimFloat.of_uint63 (Uint63.of_Z (CoffeeMaker.water c)))
       1000) = true /\
  (0 < CoffeeMaker.beans c)%Z.
Proof.
  unfold CoffeeMaker.cup_of, CoffeeMaker.CUP_SIZES. cbn [find fst snd].
  destruct (String.eqb "small" size);
    [intros H; injection H as <-; split; reflexivity|].
  destruct (String.eqb "medium" size);
    [intros H; injection H as <-; split; reflexivity|].
  destruct (String.eqb "large" size);
    [intros H; injection H as <-; split; reflexivity|].
  discriminate.
Qed.

(** On binary64, [drive] with a finite distance keeps a fuel level that
    is at least zero at least zero. *)
Lemma drive_binary64_keeps_nonneg (distance : float) (is_engine_on : bool)
    (fuel_level : float) :
  PrimFloat.is_finite distance = true ->
  PrimFloat.leb 0 fuel_level = true ->
  PrimFloat.leb 0
    (fst (snd (Car.drive_binary64 distance is_engine_on fuel_level))) = true.
Proof.
  intros Hfin Hf. unfold Car.drive_binary64. rewrite float_mul_one.
  destruct is_engine_on; simpl; [|exact Hf].
  destruct (PrimFloat.leb distance 0); simpl; [exact Hf|].
  destruct (PrimFloat.ltb fuel_level distance) eqn:L; simpl; [reflexivity|].
  destruct (is_finite_true distance Hfin) as [Hnan Hinf].
  destruct (float_leb_not_nan 0 fuel_level Hf) as [_ Hfn].
  apply float_sub_nonneg; [|exact Hinf].
  now apply float_ltb_false_leb.
Qed.

(** On binary64, [brew] keeps a water level that is at least zero at least
    zero, and never leaves fewer than no beans. *)
Lemma brew_binary64_keeps_nonneg (isOn : bool) (cupSize : string)
    (waterLevel : float) (coffeeBeans : Z) :
  PrimFloat.leb 0 waterLevel = true ->
  (0 <= coffeeBeans)%Z ->
  let after := snd (CoffeeMaker.brew_binary64 isOn cupSize waterLevel
                      coffeeBeans) in
  PrimFloat.leb 0 (fst after) = true /\ (0 <= snd after)%Z.
Proof.
  intros Hw Hb. unfold CoffeeMaker.brew_binary64.
  destruct isOn; simpl; [|split; assumption].
  destruct (CoffeeMaker.cup_of cupSize) as [c|] eqn:Hc; simpl;
    [|split; assumption].
  destruct (required_water_is_finite cupSize c Hc) as [Hfin _].
  set (required_water :=
         PrimFloat.div
           (PrimFloat.of_uint63 (Uint63.of_Z (CoffeeMaker.water c))) 1000)
    in *.
  destruct (PrimFloat.ltb waterLevel required_water) eqn:L; simpl;
    [split; assumption|].
  destruct (Z.ltb_spec coffeeBeans (CoffeeMaker.beans c)); simpl;
    [split; assumption|].
  split; [|lia].
  destruct (is_finite_true required_water Hfin) as [Hnan Hinf].
  destruct (float_leb_not_nan 0 waterLevel Hw) as [_ Hwn].
  apply float_sub_nonneg; [|exact Hinf].
  now apply float_ltb_false_leb.
Qed.

(** C1, amended.  Never negative: for [withdraw], [drive], [brew] and
    [useBattery] a quantity that is at least zero is at least zero after
    the call, on exact numbers (as Python's ints are) and, for [withdraw],
    [drive] and [brew], on binary64 for every finite amount.  Shortfall: a
    request that exceeds what is available is rejected by [withdraw]
    ([False]) and by [brew] (["success": False]) and nothing is changed.
    [drive] (engine on, positive distance) and [useBattery] (a moderate
    non-negative number, the level not negative) serve it in part instead:
    the quantity becomes 0, the car's engine is switched off, and the other
    fields are unchanged. *)
Theorem usage_never_negative_and_shortfall :
  (forall amount s,
      (0 <= BankAccount.balance s)%Q ->
      (0 <= BankAccount.balance (snd (BankAccount.withdraw amount s)))%Q) /\
  (forall distance s,
      (0 <= Car.fuel_level s)%Q ->
      (0 <= Car.fuel_level (snd (Car.drive distance s)))%Q) /\
  (forall s,
      (0 <= CoffeeMaker.waterLevel s)%Q ->
      (0 <= CoffeeMaker.coffeeBeans s)%Z ->
      (0 <= CoffeeMaker.waterLevel (snd (CoffeeMaker.brew s)))%Q /\
      (0 <= CoffeeMaker.coffeeBeans (snd (CoffeeMaker.brew s)))%Z) /\
  (forall amount s,
      (0 <= Smartphone.batteryLevel s)%Q ->
      (0 <= Smartphone.batteryLevel (snd (Smartphone.useBattery amount s)))%Q) /\
  (forall amount isActive balance,
      PrimFloat.is_finite amount = true ->
      PrimFloat.leb 0 balance = true ->
      PrimFloat.leb 0
        (snd (BankAccount.withdraw_binary64 amount isActive balance)) = true) /\
  (forall distance is_engine_on fuel_level,
      PrimFloat.is_finite distance = true ->
      PrimFloat.leb 0 fuel_level = true ->
      PrimFloat.leb 0
        (fst (snd (Car.drive_binary64 distance is_engine_on fuel_level)))
      = true) /\
  (forall isOn cupSize waterLevel coffeeBeans,
      PrimFloat.leb 0 waterLevel = true ->
      (0 <= coffeeBeans)%Z ->
      let after :=
        snd (CoffeeMaker.brew_binary64 isOn cupSize waterLevel coffeeBeans) in
      PrimFloat.leb 0 (fst after) = true /\ (0 <= snd after)%Z) /\
  (forall amount s,
      (BankAccount.balance s < amount)%Q ->
      BankAccount.value (fst (BankAccount.withdraw amount s))
        = BankAccount.RBool false /\
      snd (BankAccount.withdraw amount s) = s) /\
  (forall amount isActive balance,
      PrimFloat.ltb balance amount = true ->
      BankAccount.withdraw_binary64 amount isActive balance
        = (false, balance)) /\
  (forall s c,
      CoffeeMaker.cup_of (CoffeeMaker.cupSize s) = Some c ->
      (CoffeeMaker.coffeeBeans s < CoffeeMaker.beans c)%Z ->
      CoffeeMaker.success (fst (CoffeeMaker.brew s)) = false /\
      snd (CoffeeMaker.brew s) = s) /\
  (forall isOn cupSize waterLevel coffeeBeans c,
      CoffeeMaker.cup_of cupSize = Some c ->
      PrimFloat.ltb waterLevel
        (PrimFloat.div
           (PrimFloat.of_uint63 (Uint63.of_Z (CoffeeMaker.water c))) 1000)
        = true \/
      (coffeeBeans < CoffeeMaker.beans c)%Z ->
      CoffeeMaker.brew_binary64 isOn cupSize waterLevel coffeeBeans
        = (false, (waterLevel, coffeeBeans))) /\
  (forall distance s,
      Car.is_engine_on s = true ->
      (0 < distance)%Q ->
      (Car.fuel_level s < distance)%Q ->
      Car.drive distance s
        = (Car.RanOutOfFuel (Car.fuel_level s / 1) 0,
           Car.set_is_engine_on false (Car.set_fuel_level 0 s))) /\
  (forall distance fuel_level,
      PrimFloat.leb distance 0 = false ->
      PrimFloat.ltb fuel_level distance = true ->
      Car.drive_binary64 distance true fuel_level
        = (Car.ReturnRanOutOfFuel, (0%float, false))) /\
  (forall amount a s,
      Py.as_number amount = Some a ->
      (0 <= a)%Q ->
      Py.moderate a = true ->
      (0 <= Smartphone.batteryLevel s)%Q ->
      (Smartphone.batteryLevel s < a)%Q ->
      Smartphone.useBattery amount s
        = (Py.Return 0%Q, Smartphone.set_batteryLevel 0 s)).
Proof.
  split; [|split; [|split; [|split]]].
  - intros amount s H. unfold BankAccount.withdraw.
    destruct (BankAccount.isActive s); simpl; [|exact H].
    py_cases; simpl; lra.
  - intros distance s H. unfold Car.drive.
    destruct (Car.is_engine_on s); simpl; [|exact H].
    py_cases; simpl; lra.
  - intros s Hw Hb. unfold CoffeeMaker.brew.
    destruct (CoffeeMaker.isOn s); simpl; [|auto].
    destruct (CoffeeMaker.cup_of (CoffeeMaker.cupSize s)) as [c|]; simpl;
      [|auto].
    destruct (py_ltb_spec (CoffeeMaker.waterLevel s)
                (inject_Z (CoffeeMaker.water c) / 1000)); simpl; [auto|].
    destruct (Z.ltb_spec (CoffeeMaker.coffeeBeans s) (CoffeeMaker.beans c));
      simpl; [auto|].
    split; [lra | lia].
  - intros amount s H. unfold Smartphone.useBattery.
    destruct (Py.as_number amount) as [a|]; simpl; [|exact H].
    destruct (Py.ltb a 0); simpl; [exact H|]. apply py_max_ge_l.
  - split; [exact withdraw_binary64_keeps_nonneg|].
    split; [exact drive_binary64_keeps_nonneg|].
    split; [exact brew_binary64_keeps_nonneg|].
    split; [|split; [|split; [|split; [|split; [|split]]]]].
    + intros amount s H. unfold BankAccount.withdraw.
      destruct (BankAccount.isActive s); simpl; [|auto].
      py_cases; simpl; auto. lra.
    + intros amount isActive balance H. unfold BankAccount.withdraw_binary64.
      rewrite H. destruct isActive; simpl; [|reflexivity].
      destruct (PrimFloat.leb amount 0); reflexivity.
    + intros s c Hc H. unfold CoffeeMaker.brew. rewrite Hc.
      destruct (CoffeeMaker.isOn s); simpl; [|auto].
      destruct (Py.ltb _ _); simpl; [auto|].
      destruct (Z.ltb_spec (CoffeeMaker.coffeeBeans s) (CoffeeMaker.beans c));
        simpl; [auto|lia].
    + intros isOn cupSize waterLevel coffeeBeans c Hc H.
      unfold CoffeeMaker.brew_binary64. rewrite Hc.
      destruct isOn; simpl; [|reflexivity].
      destruct (PrimFloat.ltb waterLevel _) eqn:L; [reflexivity|].
      destruct (Z.ltb_spec coffeeBeans (CoffeeMaker.beans c));
        [reflexivity|].
      destruct H as [H|H]; [discriminate H | lia].
    + intros distance s Hon Hpos Hlt. unfold Car.drive. rewrite Hon. simpl.
      destruct (py_leb_spec distance 0); [lra|].
      destruct (py_ltb_spec (Car.fuel_level s) (distance * 1)); [|lra].
      reflexivity.
    + intros distance fuel_level Hpos Hlt. unfold Car.drive_binary64.
      rewrite float_mul_one. simpl. rewrite Hpos, Hlt. reflexivity.
    + intros amount a s Ha Hpos _ _ Hlt. unfold Smartphone.useBattery.
      rewrite Ha.
      destruct (py_ltb_spec a 0); [lra|].
      unfold Py.max.
      destruct (py_gtb_spec (Smartphone.batteryLevel s - a) 0); [lra|].
      reflexivity.
Qed.

Lemma usage_never_negative_and_shortfall_witness :
  snd (BankAccount.withdraw 2000 (BankAccount.init "ACC001" "John Doe" 1000 0.02))
  = BankAccount.init "ACC001" "John Doe" 1000 0.02.
Proof.
  apply (proj1 (proj2 (proj2 (proj2 (proj2 (proj2 (proj2 (proj2
           usage_never_negative_and_shortfall)))))))).
  simpl. lra.
Defined.

(** * Failure reports and state changes *)

(** C2, as the claim states it, fails in each of its parts.  With 1.5 L in
    a 2.0 L tank, [refillWater(1.0)] returns ["success": False] and has
    raised [waterLevel] to 2.0: a failure is reported and a field changed.
    On a phone that is locked, [lock()] returns [True] and leaves every
    field as it was: success is reported and nothing changed.  On a book
    that is checked out, [checkOut()] returns [False] and nothing else: a
    failure is reported without a reason. *)
Lemma reports_and_changes_do_not_coincide :
  let c := CoffeeMaker.init "Keurig" 1.5 150 "medium" in
  let refill := Entity.OnCoffeeMaker (CoffeeMaker.RefillWater (Py.VFloat 1)) c in
  let p := Smartphone.init "Apple" "iPhone 14" 256 85 in
  let lock := Entity.OnSmartphone Smartphone.Lock p in
  let b := snd (Book.checkOut
                  (Book.init "The Great Gatsby" "F. Scott Fitzgerald"
                     "978-0-7432-7356-5" 180)) in
  let checkOut := Entity.OnBook Book.CheckOut b in
  (Entity.reports_failure refill = true /\
   Entity.after refill = Entity.OfCoffeeMaker (CoffeeMaker.set_waterLevel 2 c) /\
   Entity.after refill <> Entity.before refill) /\
  (Entity.reports_failure lock = false /\
   Entity.after lock = Entity.before lock) /\
  (Entity.reports_failure checkOut = true /\
   Book.call Book.CheckOut b = (Py.Return (Book.RBool false), b) /\
   Entity.gives_reason checkOut = false).
Proof.
  simpl. split; [|split].
  - split; [reflexivity|]. split; [reflexivity | discriminate].
  - split; reflexivity.
  - split; [reflexivity|]. split; reflexivity.
Qed.

(** A call that reports failure leaves every field of the object as it
    was, or is one of the three calls that are carried out in part. *)
Lemma reported_failure_cases (i : Entity.invocation) :
  Entity.reports_failure i = true ->
  Entity.after i = Entity.before i \/
  Entity.carried_out_in_part i (Entity.after i).
Proof.
  destruct i as [m s|m s|m s|m s|m s]; simpl.
  - (* BankAccount *)
    destruct m; simpl;
      unfold BankAccount.deposit, BankAccount.withdraw,
        BankAccount.calculateInterest, BankAccount.closeAccount,
        BankAccount.getBalance;
      destruct (BankAccount.isActive s); simpl;
      repeat (destruct (Py.leb _ _) || destruct (Py.gtb _ _)); simpl;
      intros H; try discriminate H; left; reflexivity.
  - (* Book *)
    destruct m as [| |newCount]; simpl;
      unfold Book.checkOut, Book.returnBook, Book.setPageCount.
    + destruct (Book.isCheckedOut s); simpl; intros H;
        try discriminate H; left; reflexivity.
    + destruct (Book.isCheckedOut s); simpl; intros H;
        try discriminate H; left; reflexivity.
    + destruct (Py.as_int newCount) as [n|]; simpl;
        [destruct (n <=? 0)%Z; simpl|]; intros H;
        try discriminate H; left; reflexivity.
  - (* Car *)
    destruct m as [| |distance|amount]; simpl;
      unfold Car.start_engine, Car.stop_engine, Car.drive, Car.refuel.
    + destruct (Py.gtb _ _); simpl; intros H;
        try discriminate H; left; reflexivity.
    + intros H; discriminate H.
    + destruct (Car.is_engine_on s) eqn:Hon; simpl;
        [|intros _; left; reflexivity].
      destruct (py_leb_spec distance 0) as [Hle|Hpos]; simpl;
        [intros _; left; reflexivity|].
      destruct (py_ltb_spec (Car.fuel_level s) (distance * 1)) as [Hlt|Hge];
        simpl; intros H; [|discriminate H].
      right. apply Entity.out_of_fuel; [exact Hon | lra | lra].
    + destruct (Py.leb amount 0); simpl; intros H;
        try discriminate H; left; reflexivity.
  - (* CoffeeMaker *)
    destruct m as [| | |amount|amount|size]; simpl.
    + unfold CoffeeMaker.turnOn. destruct (CoffeeMaker.isOn s); simpl;
        intros H; try discriminate H; left; reflexivity.
    + unfold CoffeeMaker.turnOff. destruct (CoffeeMaker.isOn s); simpl;
        intros H; try discriminate H; left; reflexivity.
    + unfold CoffeeMaker.brew. destruct (CoffeeMaker.isOn s); simpl;
        [|intros _; left; reflexivity].
      destruct (CoffeeMaker.cup_of (CoffeeMaker.cupSize s)) as [c|]; simpl;
        [|intros _; left; reflexivity].
      destruct (Py.ltb _ _); simpl; [intros _; left; reflexivity|].
      destruct (_ <? _)%Z; simpl; intros H;
        try discriminate H; left; reflexivity.
    + unfold CoffeeMaker.refillWater.
      destruct (Py.as_number amount) as [a|] eqn:Ha; simpl;
        [|intros _; left; reflexivity].
      destruct (py_leb_spec a 0) as [Hle|Hpos]; simpl;
        [intros _; left; reflexivity|].
      destruct (py_gtb_spec (CoffeeMaker.waterLevel s + a)
                  (CoffeeMaker.maxWaterCapacity s)) as [Hgt|Hfit];
        simpl; intros H; [|discriminate H].
      right. apply (Entity.water_overflow s amount a); [exact Ha | lra | lra].
    + unfold CoffeeMaker.addBeans.
      destruct (Py.as_number amount) as [a|] eqn:Ha; simpl;
        [|intros _; left; reflexivity].
      destruct (py_leb_spec a 0) as [Hle|Hpos]; simpl;
        [intros _; left; reflexivity|].
      destruct (Z.gtb_spec (CoffeeMaker.coffeeBeans s + Py.int_of a)
                  (CoffeeMaker.maxBeansCapacity s)) as [Hgt|Hfit];
        simpl; intros H; [|discriminate H].
      right. apply (Entity.beans_overflow s amount a); [exact Ha | lra | lia].
    + unfold CoffeeMaker.setCupSize.
      destruct (CoffeeMaker.known_size size); simpl; intros H;
        try discriminate H; left; reflexivity.
  - (* Smartphone *)
    destruct m as [pin| |amount|amount]; simpl.
    + unfold Smartphone.unlock. destruct (Py.eq_str _ _); simpl; intros H;
        try discriminate H; left; reflexivity.
    + intros H; discriminate H.
    + unfold Smartphone.charge.
      destruct (Py.as_number amount) as [a|]; simpl;
        [destruct (Py.ltb a 0); simpl|]; intros H;
        try discriminate H; left; reflexivity.
    + unfold Smartphone.useBattery.
      destruct (Py.as_number amount) as [a|]; simpl;
        [destruct (Py.ltb a 0); simpl|]; intros H;
        try discriminate H; left; reflexivity.
Qed.


(** A failure comes with a reason, except from the methods that answer with
    a [bool] and nothing else. *)
Lemma reported_failure_reason (i : Entity.invocation) :
  Entity.reports_failure i = true ->
  Entity.gives_reason i = negb (Entity.answers_with_bool i).
Proof.
  destruct i as [m s|m s|m s|m s|m s]; simpl.
  - destruct m; simpl;
      unfold BankAccount.deposit, BankAccount.withdraw,
        BankAccount.calculateInterest, BankAccount.closeAccount,
        BankAccount.getBalance;
      destruct (BankAccount.isActive s); simpl;
      repeat (destruct (Py.leb _ _) || destruct (Py.gtb _ _)); simpl;
      intros H; try discriminate H; reflexivity.
  - destruct m as [| |newCount]; simpl;
      unfold Book.checkOut, Book.returnBook, Book.setPageCount.
    + destruct (Book.isCheckedOut s); reflexivity.
    + destruct (Book.isCheckedOut s); reflexivity.
    + destruct (Py.as_int newCount) as [n|]; simpl;
        [destruct (n <=? 0)%Z; simpl|]; intros H;
        try discriminate H; reflexivity.
  - destruct m; reflexivity.
  - destruct m as [| | |amount|amount|size]; simpl.
    + unfold CoffeeMaker.turnOn. destruct (CoffeeMaker.isOn s); reflexivity.
    + unfold CoffeeMaker.turnOff. destruct (CoffeeMaker.isOn s); reflexivity.
    + destruct (CoffeeMaker.brew s); reflexivity.
    + destruct (CoffeeMaker.refillWater amount s); reflexivity.
    + destruct (CoffeeMaker.addBeans amount s); reflexivity.
    + unfold CoffeeMaker.setCupSize.
      destruct (CoffeeMaker.known_size size); reflexivity.
  - destruct m as [pin| |amount|amount]; simpl.
    + unfold Smartphone.unlock. destruct (Py.eq_str _ _); reflexivity.
    + reflexivity.
    + unfold Smartphone.charge.
      destruct (Py.as_number amount) as [a|]; simpl;
        [destruct (Py.ltb a 0); simpl|]; intros H;
        try discriminate H; reflexivity.
    + unfold Smartphone.useBattery.
      destruct (Py.as_number amount) as [a|]; simpl;
        [destruct (Py.ltb a 0); simpl|]; intros H;
        try discriminate H; reflexivity.
Qed.

(** For [checkOut], [returnBook], [turnOn], [turnOff] and [brew], success
    is reported exactly when the state has changed. *)
Lemma tested_assignment_cases (i : Entity.invocation) :
  Entity.tests_what_it_assigns i = true ->
  (Entity.reports_failure i = false /\ Entity.after i <> Entity.before i) \/
  (Entity.reports_failure i = true /\ Entity.after i = Entity.before i).
Proof.
  destruct i as [m s|m s|m s|m s|m s]; simpl; try discriminate.
  - destruct m as [| |newCount]; try discriminate; intros _; simpl;
      unfold Book.checkOut, Book.returnBook;
      destruct (Book.isCheckedOut s) eqn:E; simpl; auto; left;
      (split; [reflexivity|]); intros H; injection H as H;
      apply (f_equal Book.isCheckedOut) in H; simpl in H; congruence.
  - destruct m as [| | |amount|amount|size]; try discriminate; intros _;
      simpl.
    + unfold CoffeeMaker.turnOn.
      destruct (CoffeeMaker.isOn s) eqn:E; simpl; auto; left;
        (split; [reflexivity|]); intros H; injection H as H;
        apply (f_equal CoffeeMaker.isOn) in H; simpl in H; congruence.
    + unfold CoffeeMaker.turnOff.
      destruct (CoffeeMaker.isOn s) eqn:E; simpl; auto; left;
        (split; [reflexivity|]); intros H; injection H as H;
        apply (f_equal CoffeeMaker.isOn) in H; simpl in H; congruence.
    + unfold CoffeeMaker.brew.
      destruct (CoffeeMaker.isOn s); simpl; auto.
      destruct (CoffeeMaker.cup_of (CoffeeMaker.cupSize s)) as [c|] eqn:Hc;
        simpl; auto.
      destruct (Py.ltb _ _); simpl; auto.
      destruct (_ <? _)%Z; simpl; auto.
      left. split; [reflexivity|]. intros H. injection H as H.
      apply (f_equal CoffeeMaker.coffeeBeans) in H. simpl in H.
      destruct (required_water_is_finite _ c Hc) as [_ Hb]. lia.
Qed.

(** C2, amended.  On moderate numbers, a call that reports failure leaves
    every field of the object as it was, except the three calls that are
    carried out in part and say so: [refillWater] and [addBeans] with a
    positive amount above the remaining capacity (the level becomes the
    capacity, ["success": False]) and [drive] with the engine on and a
    positive distance above the fuel level (the tank is emptied and the
    engine stopped); so a call that changes a field reports success or is
    one of these three.  A failure is reported with a reason, except by the
    methods that answer with a [bool] and nothing else.  Success is
    reported exactly when the state has changed by [checkOut],
    [returnBook], [turnOn], [turnOff] and [brew]; the other methods may
    report success and leave the state as it was. *)
Theorem failure_leaves_state_or_is_partial (i : Entity.invocation) :
  Entity.moderate i = true ->
  (Entity.reports_failure i = true ->
   Entity.after i = Entity.before i \/
   Entity.carried_out_in_part i (Entity.after i)) /\
  (Entity.after i <> Entity.before i ->
   Entity.reports_failure i = false \/
   Entity.carried_out_in_part i (Entity.after i)) /\
  (Entity.reports_failure i = true ->
   Entity.gives_reason i = negb (Entity.answers_with_bool i)) /\
  (Entity.tests_what_it_assigns i = true ->
   (Entity.reports_failure i = false <-> Entity.after i <> Entity.before i)).
Proof.
  intros _. split; [apply reported_failure_cases|]. split; [|split].
  - intros Hch. destruct (Entity.reports_failure i) eqn:F; [|left; reflexivity].
    destruct (reported_failure_cases i F) as [E|P]; [contradiction | right; exact P].
  - apply reported_failure_reason.
  - intros Ht.
    destruct (tested_assignment_cases i Ht) as [[F C]|[F E]]; rewrite F.
    + split; [intros _; exact C | reflexivity].
    + split; [discriminate | intros C; contradiction].
Qed.

Lemma failure_leaves_state_or_is_partial_witness :
  let s := BankAccount.init "ACC001" "John Doe" 1000 0.02 in
  let i := Entity.OnBankAccount (BankAccount.Withdraw 2000) s in
  Entity.after i = Entity.before i \/
  Entity.carried_out_in_part i (Entity.after i).
Proof.
  apply (failure_leaves_state_or_is_partial
           (Entity.OnBankAccount (BankAccount.Withdraw 2000)
              (BankAccount.init "ACC001" "John Doe" 1000 0.02))).
  - reflexivity.
  - reflexivity.
Defined.

(** * Mode flags and the formatted summary *)

(** Decides an [endswith] test on a summary: the summary is cut into its
    pieces from the right, and the last pieces are literals. *)
Ltac last_pieces :=
  unfold Py.endswith; rewrite <- ?string_app_assoc; rewrite !reverse_app;
  reflexivity.

Lemma book_summary_shows (s : Book.t) :
  Book.summary_shows s (Book.isCheckedOut s).
Proof.
  unfold Book.summary_shows, Book.str, Book.isAvailable.
  destruct (Book.isCheckedOut s); cbv beta iota zeta delta [negb];
    split; last_pieces.
Qed.

Lemma smartphone_summary_shows (str_num : Q -> string) (s : Smartphone.t) :
  Smartphone.summary_shows str_num s (Smartphone.isLocked s).
Proof.
  unfold Smartphone.summary_shows, Smartphone.str.
  destruct (Smartphone.isLocked s); cbv beta iota zeta delta [negb];
    split; last_pieces.
Qed.

Lemma coffee_maker_summary_shows (fmt_2f : Q -> string) (s : CoffeeMaker.t) :
  CoffeeMaker.summary_shows fmt_2f s (CoffeeMaker.isOn s).
Proof.
  unfold CoffeeMaker.summary_shows, CoffeeMaker.str, Py.startswith.
  rewrite !prefix_app.
  destruct (CoffeeMaker.isOn s); simpl; split; reflexivity.
Qed.

(** [getSummary] of a book, unlike [__str__], does not depend on the
    flag. *)
Lemma getSummary_ignores_flag (b : bool) (s : Book.t) :
  Book.getSummary (Book.set_isCheckedOut b s) = Book.getSummary s.
Proof. reflexivity. Qed.

(** C6. Each mode-flag call, made a second time with the same input,
    leaves the state the first call left; and the [__str__] summary of
    that state shows the flag's resulting value (and not the other one). *)
Theorem mode_flag_calls_idempotent_and_shown :
  (forall s,
      let s1 := snd (Book.checkOut s) in
      snd (Book.checkOut s1) = s1 /\
      Book.isCheckedOut s1 = true /\
      Book.summary_shows s1 true) /\
  (forall s,
      let s1 := snd (Book.returnBook s) in
      snd (Book.returnBook s1) = s1 /\
      Book.isCheckedOut s1 = false /\
      Book.summary_shows s1 false) /\
  (forall str_num s,
      let s1 := snd (Smartphone.lock s) in
      snd (Smartphone.lock s1) = s1 /\
      Smartphone.isLocked s1 = true /\
      Smartphone.summary_shows str_num s1 true) /\
  (forall str_num pin s,
      let s1 := snd (Smartphone.unlock pin s) in
      snd (Smartphone.unlock pin s1) = s1 /\
      Smartphone.isLocked s1
        = (if fst (Smartphone.unlock pin s) then false
           else Smartphone.isLocked s) /\
      Smartphone.summary_shows str_num s1 (Smartphone.isLocked s1)) /\
  (forall fmt_2f s,
      let s1 := snd (CoffeeMaker.turnOn s) in
      snd (CoffeeMaker.turnOn s1) = s1 /\
      CoffeeMaker.isOn s1 = true /\
      CoffeeMaker.summary_shows fmt_2f s1 true) /\
  (forall fmt_2f s,
      let s1 := snd (CoffeeMaker.turnOff s) in
      snd (CoffeeMaker.turnOff s1) = s1 /\
      CoffeeMaker.isOn s1 = false /\
      CoffeeMaker.summary_shows fmt_2f s1 false).
Proof.
  split; [|split; [|split; [|split; [|split]]]].
  - intros s s1.
    assert (H : Book.isCheckedOut s1 = true)
      by (unfold s1, Book.checkOut; destruct (Book.isCheckedOut s) eqn:E;
          simpl; auto).
    split; [|split; [exact H|]].
    + unfold Book.checkOut at 1. now rewrite H.
    + rewrite <- H. apply book_summary_shows.
  - intros s s1.
    assert (H : Book.isCheckedOut s1 = false)
      by (unfold s1, Book.returnBook; destruct (Book.isCheckedOut s) eqn:E;
          simpl; auto).
    split; [|split; [exact H|]].
    + unfold Book.returnBook at 1. now rewrite H.
    + rewrite <- H. apply book_summary_shows.
  - intros str_num s s1. split; [reflexivity|]. split; [reflexivity|].
    apply (smartphone_summary_shows str_num s1).
  - intros str_num pin s s1. split; [|split].
    + unfold s1, Smartphone.unlock.
      destruct (Py.eq_str _ (Smartphone._correctPin s)) eqn:E; simpl;
        rewrite E; reflexivity.
    + unfold s1, Smartphone.unlock.
      destruct (Py.eq_str _ (Smartphone._correctPin s)); reflexivity.
    + apply smartphone_summary_shows.
  - intros fmt_2f s s1.
    assert (H : CoffeeMaker.isOn s1 = true)
      by (unfold s1, CoffeeMaker.turnOn; destruct (CoffeeMaker.isOn s) eqn:E;
          simpl; auto).
    split; [|split; [exact H|]].
    + unfold CoffeeMaker.turnOn at 1. now rewrite H.
    + rewrite <- H. apply coffee_maker_summary_shows.
  - intros fmt_2f s s1.
    assert (H : CoffeeMaker.isOn s1 = false)
      by (unfold s1, CoffeeMaker.turnOff; destruct (CoffeeMaker.isOn s) eqn:E;
          simpl; auto).
    split; [|split; [exact H|]].
    + unfold CoffeeMaker.turnOff at 1. now rewrite H.
    + rewrite <- H. apply coffee_maker_summary_shows.
Qed.

(** * coffee_maker.py: the documented brew *)

Section CoffeeMakerFacts.

Import CoffeeMaker.

Example CUP_SIZES_medium : cup_of "medium" = Some (mkCup 180 12).
Proof. reflexivity. Qed.

(** C7. A coffee maker that is on, holds 1.5 L of water, is set to
    "medium" (180 ml of water, 12 g of beans) and has at least 12 g of
    beans brews with ["success": True]; it is left with 1.32 L of water and
    12 g of beans fewer, nothing else changed.  On binary64 floats the same
    subtraction, 1.5 - 180 / 1000.0, is the float written 1.32. *)
#[warnings="-inexact-float"]
Theorem brew_medium_from_one_and_a_half_litres (s : t) :
  isOn s = true ->
  (waterLevel s == 1.5)%Q ->
  cupSize s = "medium"%string ->
  (12 <= coffeeBeans s)%Z ->
  success (fst (brew s)) = true /\
  (waterLevel (snd (brew s)) == 1.32)%Q /\
  coffeeBeans (snd (brew s)) = (coffeeBeans s - 12)%Z /\
  snd (brew s)
    = set_coffeeBeans (coffeeBeans s - 12)
        (set_waterLevel (waterLevel s - inject_Z 180 / 1000) s) /\
  water_after_brew_binary64 1.5%float "medium" = Some 1.32%float.
Proof.
  intros Hon Hw Hsize Hb. unfold brew. rewrite Hon, Hsize. simpl.
  destruct (py_ltb_spec (waterLevel s) (inject_Z 180 / 1000)) as [Hlt|_];
    [rewrite Hw in Hlt; vm_compute in Hlt; discriminate Hlt|].
  destruct (Z.ltb_spec (coffeeBeans s) 12) as [Hlt|_]; [lia|]. simpl.
  split; [reflexivity|].
  split; [rewrite Hw; reflexivity|].
  split; [reflexivity|].
  split; reflexivity.
Qed.

#[warnings="-inexact-float"]
Lemma brew_medium_from_one_and_a_half_litres_witness :
  let s := snd (turnOn (init "Keurig" 1.5 150 "medium")) in
  success (fst (brew s)) = true /\
  (waterLevel (snd (brew s)) == 1.32)%Q /\
  coffeeBeans (snd (brew s)) = 138%Z.
Proof.
  destruct (brew_medium_from_one_and_a_half_litres
              (snd (turnOn (init "Keurig" 1.5 150 "medium"))))
    as (H1 & H2 & H3 & _).
  - reflexivity.
  - reflexivity.
  - reflexivity.
  - simpl. lia.
  - split; [exact H1 | split; [exact H2 | exact H3]].
Defined.

End CoffeeMakerFacts.

(** * bank_account.py: identity, solvency, round trips, interest *)

Section BankAccountLedger.

Import BankAccount.

Lemma bank_call_keeps_identity (m : method) (s : t) :
  accountNumber (snd (call m s)) = accountNumber s /\
  accountHolder (snd (call m s)) = accountHolder s /\
  interestRate (snd (call m s)) = interestRate s.
Proof.
  destruct m; simpl;
    unfold deposit, withdraw, calculateInterest, closeAccount, getBalance;
    destruct (isActive s); simpl;
    repeat (destruct (Py.leb _ _) || destruct (Py.gtb _ _)); simpl; auto.
Qed.

(** A property of the account that every call keeps holds after every
    sequence of calls. *)
Lemma bank_run_invariant (P : t -> Prop) :
  (forall m s, P s -> P (snd (call m s))) ->
  forall ms s, P s -> P (snd (run ms s)).
Proof.
  intros Hstep ms. induction ms as [|m ms IH]; intros s Hs; simpl.
  - exact Hs.
  - specialize (Hstep m s Hs). destruct (call m s) as [r s1]. simpl in Hstep.
    specialize (IH s1 Hstep). destruct (run ms s1) as [rs s2]. exact IH.
Qed.

(** No sequence of calls changes the account number, the holder or the
    interest rate. *)
Theorem account_identity_is_fixed (ms : list method) (s : t) :
  accountNumber (snd (run ms s)) = accountNumber s /\
  accountHolder (snd (run ms s)) = accountHolder s /\
  interestRate (snd (run ms s)) = interestRate s.
Proof.
  apply (bank_run_invariant
           (fun s' => accountNumber s' = accountNumber s /\
                      accountHolder s' = accountHolder s /\
                      interestRate s' = interestRate s)).
  - intros m s0 (H1 & H2 & H3).
    destruct (bank_call_keeps_identity m s0) as (K1 & K2 & K3).
    repeat split; congruence.
  - repeat split.
Qed.

(** The last line of [__str__] tells whether the account is open: the
    summary ends with "Status: Active" exactly when [isActive] holds and
    with "Status: Closed" exactly when it does not; after [closeAccount] it
    ends with "Status: Closed" whatever is called next. *)
Theorem account_summary_shows_status (fmt_2f : Q -> string) (s : t) :
  Py.endswith (str fmt_2f s) "Status: Active" = isActive s /\
  Py.endswith (str fmt_2f s) "Status: Closed" = negb (isActive s) /\
  (forall ms,
      Py.endswith (str fmt_2f (snd (run ms (snd (closeAccount s)))))
        "Status: Closed" = true).
Proof.
  assert (H : forall s0,
             Py.endswith (str fmt_2f s0) "Status: Active" = isActive s0 /\
             Py.endswith (str fmt_2f s0) "Status: Closed"
               = negb (isActive s0)).
  { intros s0. unfold str.
    destruct (isActive s0); cbv beta iota zeta delta [negb];
      split; last_pieces. }
  split; [apply H|]. split; [apply H|].
  intros ms.
  destruct (run_closed ms (snd (closeAccount s)) eq_refl) as [Hs _].
  rewrite Hs. destruct (H (snd (closeAccount s))) as [_ K]. exact K.
Qed.

End BankAccountLedger.

(** * book.py: lending, page count, what the summaries depend on *)

Section BookFacts.

Import Book.

Lemma book_run_invariant (P : t -> Prop) :
  (forall m s, P s -> P (snd (call m s))) ->
  forall ms s, P s -> P (snd (run ms s)).
Proof.
  intros Hstep ms. induction ms as [|m ms IH]; intros s Hs; simpl.
  - exact Hs.
  - specialize (Hstep m s Hs). destruct (call m s) as [r s1]. simpl in Hstep.
    specialize (IH s1 Hstep). destruct (run ms s1) as [rs s2]. exact IH.
Qed.

Lemma book_call_cases (m : method) (s : t) :
  snd (call m s) = s \/
  (exists b, snd (call m s) = set_isCheckedOut b s) \/
  (exists n, (0 < n)%Z /\ snd (call m s) = set_pageCount n s).
Proof.
  destruct m as [| |newCount]; simpl.
  - unfold checkOut. destruct (isCheckedOut s); simpl; eauto.
  - unfold returnBook. destruct (isCheckedOut s); simpl; eauto.
  - unfold setPageCount. destruct (Py.as_int newCount) as [n|]; simpl; auto.
    destruct (Z.leb_spec n 0); simpl; auto.
    right; right. exists n. split; [lia | reflexivity].
Qed.

(** On every book exactly one of [checkOut] and [returnBook] succeeds, the
    one that succeeds flips [isAvailable], and doing the two in the order
    that succeeds gives back the very same book. *)
Theorem lending_alternates (s : t) :
  fst (checkOut s) = isAvailable s /\
  fst (returnBook s) = negb (isAvailable s) /\
  isAvailable (snd (checkOut s)) = false /\
  isAvailable (snd (returnBook s)) = true /\
  (if isAvailable s
   then returnBook (snd (checkOut s)) = (true, s)
   else checkOut (snd (returnBook s)) = (true, s)).
Proof.
  unfold isAvailable, checkOut, returnBook.
  destruct s as [ti au isb pc [|]]; simpl; repeat split.
Qed.

(** [setPageCount] stores exactly the positive [int]s: any other value,
    a positive float included, raises [ValueError] and leaves the book as
    it was. *)
Theorem setPageCount_accepts_positive_ints (newCount : Py.value) (s : t) :
  match newCount with
  | Py.VInt n =>
      if (0 <? n)%Z
      then setPageCount newCount s = (Py.Return tt, set_pageCount n s)
      else Py.raised (fst (setPageCount newCount s)) = true /\
           snd (setPageCount newCount s) = s
  | _ =>
      Py.raised (fst (setPageCount newCount s)) = true /\
      snd (setPageCount newCount s) = s
  end.
Proof.
  destruct newCount as [n|q|x|]; unfold setPageCount; simpl; auto.
  destruct (Z.ltb_spec 0 n), (Z.leb_spec n 0); simpl; auto; lia.
Qed.

(** A book constructed with a positive page count has a positive page
    count after every sequence of calls. *)
Theorem pageCount_stays_positive (ms : list method) (s : t) :
  (0 < pageCount s)%Z ->
  (0 < pageCount (snd (run ms s)))%Z.
Proof.
  apply (book_run_invariant (fun s' => (0 < pageCount s')%Z)).
  intros m s0 H0.
  destruct (book_call_cases m s0) as [E|[[b E]|[n [Hn E]]]];
    rewrite E; simpl; assumption.
Qed.

Lemma pageCount_stays_positive_witness :
  (0 < pageCount
         (snd (run [CheckOut; SetPageCount (Py.VInt (-3));
                    SetPageCount (Py.VFloat 2.5); SetPageCount (Py.VInt 200);
                    ReturnBook; SetPageCount Py.VNone]
                 (init "The Great Gatsby" "F. Scott Fitzgerald"
                    "978-0-7432-7356-5" 180))))%Z.
Proof.
  apply pageCount_stays_positive. simpl. lia.
Defined.

(** What [getSummary] returns never changes over the life of a book: no
    sequence of calls, whatever their arguments, changes the title, the
    author or the ISBN, and the summary does not tell whether the book is
    checked out. *)
Theorem book_summary_is_fixed (ms : list method) (s : t) :
  getSummary (snd (run ms s)) = getSummary s.
Proof.
  assert (H : title (snd (run ms s)) = title s /\
              author (snd (run ms s)) = author s /\
              isbn (snd (run ms s)) = isbn s).
  { apply (book_run_invariant
             (fun s' => title s' = title s /\ author s' = author s /\
                        isbn s' = isbn s)); [|repeat split].
    intros m s0 H0.
    destruct (book_call_cases m s0) as [E|[[b E]|[n [Hn E]]]];
      rewrite E; simpl; assumption. }
  destruct H as (Ht & Ha & Hi).
  unfold getSummary. now rewrite Ht, Ha, Hi.
Qed.

End BookFacts.

(** * car.py: the engine, the tank, the description *)

Section CarJourneys.

Import Car.

Lemma car_run_invariant (P : t -> Prop) :
  (forall m s, P s -> P (snd (call m s))) ->
  forall ms s, P s -> P (snd (run ms s)).
Proof.
  intros Hstep ms. induction ms as [|m ms IH]; intros s Hs; simpl.
  - exact Hs.
  - specialize (Hstep m s Hs). destruct (call m s) as [r s1]. simpl in Hstep.
    specialize (IH s1 Hstep). destruct (run ms s1) as [rs s2]. exact IH.
Qed.

Lemma car_call_keeps_details (m : method) (s : t) :
  make (snd (call m s)) = make s /\
  model (snd (call m s)) = model s /\
  year (snd (call m s)) = year s /\
  color (snd (call m s)) = color s.
Proof.
  destruct m as [| |distance|amount]; simpl;
    unfold start_engine, stop_engine, drive, refuel.
  - destruct (Py.gtb _ _); simpl; auto.
  - simpl; auto.
  - destruct (is_engine_on s); simpl; auto.
    destruct (Py.leb _ _); simpl; auto.
    destruct (Py.ltb _ _); simpl; auto.
  - destruct (Py.leb _ _); simpl; auto.
Qed.

(** No sequence of calls changes what [get_details] returns. *)
Theorem car_details_are_fixed (ms : list method) (s : t) :
  get_details (snd (run ms s)) = get_details s.
Proof.
  assert (H : make (snd (run ms s)) = make s /\
              model (snd (run ms s)) = model s /\
              year (snd (run ms s)) = year s /\
              color (snd (run ms s)) = color s).
  { apply (car_run_invariant
             (fun s' => make s' = make s /\ model s' = model s /\
                        year s' = year s /\ color s' = color s));
      [|repeat split].
    intros m s0 (H1 & H2 & H3 & H4).
    destruct (car_call_keeps_details m s0) as (K1 & K2 & K3 & K4).
    repeat split; congruence. }
  destruct H as (H1 & H2 & H3 & H4).
  unfold get_details. now rewrite H1, H2, H3, H4.
Qed.



(** With fuel within the documented range, driving exactly as far as the
    fuel allows empties the tank and leaves the engine running; the next
    drive, however short, covers no distance and stops the engine. *)
Theorem drive_to_the_last_drop (s : t) :
  is_engine_on s = true ->
  (0 < fuel_level s)%Q ->
  (fuel_level s <= 100)%Q ->
  let s1 := snd (drive (fuel_level s) s) in
  (fuel_level s1 == 0)%Q /\
  is_engine_on s1 = true /\
  (forall distance,
      (0 < distance)%Q ->
      fst (drive distance s1) = RanOutOfFuel (fuel_level s1 / 1) 0 /\
      is_engine_on (snd (drive distance s1)) = false).
Proof.
  intros Hon Hf _. unfold drive at 1. rewrite Hon. simpl.
  destruct (py_leb_spec (fuel_level s) 0) as [?|_]; [lra|].
  destruct (py_ltb_spec (fuel_level s) (fuel_level s * 1)) as [?|_]; [lra|].
  simpl. split; [ring|]. split; [exact Hon|].
  intros distance Hd. unfold drive. simpl. rewrite Hon. simpl.
  destruct (py_leb_spec distance 0) as [?|_]; [lra|].
  destruct (py_ltb_spec (fuel_level s - fuel_level s * 1) (distance * 1))
    as [_|?]; [|lra].
  simpl. split; reflexivity.
Qed.

Lemma drive_to_the_last_drop_witness :
  is_engine_on
    (snd (drive 100 (init "Toyota" "Camry" 2023 "Blue" 100 true))) = true.
Proof.
  apply (drive_to_the_last_drop (init "Toyota" "Camry" 2023 "Blue" 100 true));
    [reflexivity | reflexivity | simpl; lra].
Defined.

(** A car that ran out of fuel cannot be started until it is refuelled:
    [start_engine] leaves it as it is, and after [refuel] with any positive
    amount [start_engine] succeeds. *)
Theorem empty_tank_needs_refuel (distance : Q) (s : t) :
  is_engine_on s = true ->
  (0 < distance)%Q ->
  (fuel_level s < distance)%Q ->
  let s1 := snd (drive distance s) in
  start_engine s1 = (CannotStart, s1) /\
  (forall amount,
      (0 < amount)%Q ->
      let s2 := snd (refuel amount s1) in
      start_engine s2 = (EngineStarted, set_is_engine_on true s2)).
Proof.
  intros Hon Hd Hlt. unfold drive. rewrite Hon. simpl.
  destruct (py_leb_spec distance 0) as [?|_]; [lra|].
  destruct (py_ltb_spec (fuel_level s) (distance * 1)) as [_|?]; [|lra].
  simpl. split; [reflexivity|].
  intros amount Ha. unfold refuel. simpl.
  destruct (py_leb_spec amount 0) as [?|_]; [lra|]. simpl.
  unfold start_engine. simpl.
  destruct (py_gtb_spec (Py.min 100 (0 + amount)) 0) as [_|N];
    [reflexivity|].
  exfalso. apply N. unfold Py.min. py_cases; lra.
Qed.

Lemma empty_tank_needs_refuel_witness :
  start_engine
    (snd (drive 25 (init "Toyota" "Camry" 2023 "Blue" 10 true)))
  = (CannotStart,
     snd (drive 25 (init "Toyota" "Camry" 2023 "Blue" 10 true))).
Proof.
  apply (empty_tank_needs_refuel 25
           (init "Toyota" "Camry" 2023 "Blue" 10 true));
    reflexivity.
Defined.

(** Switching the engine: [stop_engine] twice is [stop_engine] once,
    [start_engine] twice is [start_engine] once, and the last line of
    [__str__] reads "Engine: On" exactly when the engine is on and
    "Engine: Off" exactly when it is off. *)
Theorem engine_switch_idempotent_and_shown (fmt_1f : Q -> string) (s : t) :
  snd (stop_engine (snd (stop_engine s))) = snd (stop_engine s) /\
  snd (start_engine (snd (start_engine s))) = snd (start_engine s) /\
  Py.endswith (str fmt_1f s) "Engine: On" = is_engine_on s /\
  Py.endswith (str fmt_1f s) "Engine: Off" = negb (is_engine_on s).
Proof.
  split; [reflexivity|]. split.
  - unfold start_engine.
    destruct (Py.gtb (fuel_level s) 0) eqn:E; simpl; rewrite E; reflexivity.
  - unfold str.
    destruct (is_engine_on s); cbv beta iota zeta delta [negb];
      split; last_pieces.
Qed.

End CarJourneys.

(** * coffee_maker.py: readiness, resources, reports *)

Section CoffeeMakerResources.

Import CoffeeMaker.

Lemma cm_run_invariant (P : t -> Prop) :
  (forall m s, P s -> P (snd (call m s))) ->
  forall ms s, P s -> P (snd (run ms s)).
Proof.
  intros Hstep ms. induction ms as [|m ms IH]; intros s Hs; simpl.
  - exact Hs.
  - specialize (Hstep m s Hs). destruct (call m s) as [r s1]. simpl in Hstep.
    specialize (IH s1 Hstep). destruct (run ms s1) as [rs s2]. exact IH.
Qed.

Lemma known_size_cases (size : string) :
  known_size size = true <->
  size = "small"%string \/ size = "medium"%string \/ size = "large"%string.
Proof.
  unfold known_size, cup_of, CUP_SIZES. cbn [find fst snd].
  destruct (String.eqb_spec "small" size) as [E1|N1];
    [split; auto|].
  destruct (String.eqb_spec "medium" size) as [E2|N2];
    [split; auto|].
  destruct (String.eqb_spec "large" size) as [E3|N3];
    [split; auto|].
  split; [discriminate|]. intros [H|[H|H]]; subst; congruence.
Qed.

Lemma cup_requirements_nonneg (size : string) (c : cup) :
  cup_of size = Some c ->
  (0 <= inject_Z (water c) / 1000)%Q /\ (0 <= beans c)%Z.
Proof.
  unfold cup_of, CUP_SIZES. cbn [find fst snd].
  destruct (String.eqb "small" size);
    [intros H; injection H as <-; split; [unfold Qle; simpl; lia | simpl; lia]|].
  destruct (String.eqb "medium" size);
    [intros H; injection H as <-; split; [unfold Qle; simpl; lia | simpl; lia]|].
  destruct (String.eqb "large" size);
    [intros H; injection H as <-; split; [unfold Qle; simpl; lia | simpl; lia]|].
  discriminate.
Qed.

Lemma init_well_formed (brand0 : string) (w : Q) (b : Z) (size : string) :
  well_formed brand0 (init brand0 w b size).
Proof.
  unfold well_formed, init; simpl.
  split; [apply py_max_ge_l|]. split; [lia|].
  split; [|repeat split].
  destruct (known_size size) eqn:E; [exact E | reflexivity].
Qed.

Lemma call_well_formed (brand0 : string) (m : method) (s : t) :
  well_formed brand0 s -> well_formed brand0 (snd (call m s)).
Proof.
  unfold well_formed. intros (Hw & Hb & Hk & Hbr & Hmw & Hmb).
  destruct m as [| | |amount|amount|size]; simpl.
  - unfold turnOn. destruct (isOn s); simpl; auto 10.
  - unfold turnOff. destruct (isOn s); simpl; auto 10.
  - unfold brew. destruct (isOn s); simpl; auto 10.
    destruct (cup_of (cupSize s)) as [c|]; simpl; auto 10.
    destruct (py_ltb_spec (waterLevel s) (inject_Z (water c) / 1000));
      simpl; auto 10.
    destruct (Z.ltb_spec (coffeeBeans s) (beans c)); simpl; auto 10.
    repeat split; auto; [lra | lia].
  - unfold refillWater. destruct (Py.as_number amount) as [a|]; simpl;
      auto 10.
    destruct (py_leb_spec a 0); simpl; auto 10.
    destruct (py_gtb_spec (waterLevel s + a) (maxWaterCapacity s)); simpl;
      repeat split; auto; try lra. rewrite Hmw. lra.
  - unfold addBeans. destruct (Py.as_number amount) as [a|]; simpl; auto 10.
    destruct (py_leb_spec a 0); simpl; auto 10.
    assert (0 <= Py.int_of a)%Z by (apply py_int_of_nonneg; lra).
    destruct (Z.gtb_spec (coffeeBeans s + Py.int_of a) (maxBeansCapacity s));
      simpl; repeat split; auto; lia.
  - unfold setCupSize. destruct (known_size size) eqn:E; simpl; auto 10.
Qed.

(** Whatever the constructor is given and whatever is called afterwards,
    the beans are never negative, brand and capacities stay as constructed,
    and the cup size is one of "small", "medium" and "large", so that
    [brew] never answers "Invalid cup size". *)
Theorem beans_never_negative_and_size_known (brand0 : string)
    (w : Q) (b : Z) (size : string) (ms : list method) :
  let s := snd (run ms (init brand0 w b size)) in
  (0 <= coffeeBeans s)%Z /\
  (cupSize s = "small" \/ cupSize s = "medium" \/ cupSize s = "large")%string /\
  brand s = brand0 /\
  maxWaterCapacity s = 2%Q /\
  maxBeansCapacity s = 500%Z /\
  msg (fst (brew s)) <> InvalidCupSize (cupSize s).
Proof.
  intros s.
  assert (H : well_formed brand0 s).
  { apply (cm_run_invariant (well_formed brand0) (call_well_formed brand0)).
    apply init_well_formed. }
  destruct H as (Hw & Hb & Hk & Hbr & Hmw & Hmb).
  repeat (split; [first [assumption | now apply known_size_cases]|]).
  unfold brew, known_size in *. destruct (isOn s); simpl; [|discriminate].
  destruct (cup_of (cupSize s)) as [c|]; [|discriminate Hk].
  destruct (Py.ltb _ _); simpl; [discriminate|].
  destruct (_ <? _)%Z; simpl; discriminate.
Qed.

(** A coffee maker constructed with at most 500 g of beans never holds
    more than that, whatever is called on it. *)
Theorem beans_stay_within_capacity (brand0 : string) (w : Q) (b : Z)
    (size : string) (ms : list method) :
  (b <= 500)%Z ->
  let s := snd (run ms (init brand0 w b size)) in
  (coffeeBeans s <= 500)%Z.
Proof.
  intros Hb s.
  assert (H : (coffeeBeans s <= maxBeansCapacity s)%Z /\
              well_formed brand0 s).
  { apply (cm_run_invariant
             (fun s' => (coffeeBeans s' <= maxBeansCapacity s')%Z /\
                        well_formed brand0 s')).
    - clear. intros m s [Hb Hwf]. split; [|now apply call_well_formed].
      destruct Hwf as (Hw0 & Hb0 & _).
      destruct m as [| | |amount|amount|size]; simpl.
      + unfold turnOn. destruct (isOn s); simpl; auto.
      + unfold turnOff. destruct (isOn s); simpl; auto.
      + unfold brew. destruct (isOn s); simpl; auto.
        destruct (cup_of (cupSize s)) as [c|] eqn:Ec; simpl; auto.
        destruct (Py.ltb _ _); simpl; auto.
        destruct (Z.ltb_spec (coffeeBeans s) (beans c)); simpl; auto.
        destruct (cup_requirements_nonneg (cupSize s) c Ec) as [Hc1 Hc2].
        lia.
      + unfold refillWater. destruct (Py.as_number amount) as [a|]; simpl;
          auto.
        destruct (Py.leb a 0); simpl; auto.
        destruct (Py.gtb _ _); simpl; auto.
      + unfold addBeans. destruct (Py.as_number amount) as [a|]; simpl; auto.
        destruct (py_leb_spec a 0); simpl; auto.
        destruct (Z.gtb_spec (coffeeBeans s + Py.int_of a)
                    (maxBeansCapacity s)); simpl; auto; lia.
      + unfold setCupSize. destruct (known_size size); simpl; auto.
    - split; [|apply init_well_formed]. simpl. lia. }
  destruct H as [H2 (_ & _ & _ & _ & Hmw & Hmb)].
  rewrite Hmb in H2. assumption.
Qed.

Lemma beans_stay_within_capacity_witness :
  (coffeeBeans
     (snd (run [TurnOn; Brew; RefillWater (Py.VFloat 5); AddBeans (Py.VInt 900)]
             (init "Keurig" 1.5 150 "medium"))) <= 500)%Z.
Proof.
  apply (beans_stay_within_capacity "Keurig" 1.5 150 "medium"). lia.
Defined.

(** While the water level is a number at least zero (NaN is not),
    [canBrew], and the "canBrew" entry of [getStatus], tell exactly whether
    [brew] would succeed. *)
Theorem canBrew_predicts_brew (s : t) :
  (0 <= waterLevel s)%Q ->
  canBrew s = success (fst (brew s)) /\
  status_canBrew (getStatus s) = success (fst (brew s)).
Proof.
  intros _.
  assert (H : canBrew s = success (fst (brew s))); [|split; exact H].
  unfold canBrew, brew, known_size. destruct (isOn s); simpl; [|reflexivity].
  destruct (cup_of (cupSize s)) as [c|]; simpl; [|reflexivity].
  destruct (py_geb_spec (waterLevel s) (inject_Z (water c) / 1000)) as [G|G];
    destruct (py_ltb_spec (waterLevel s) (inject_Z (water c) / 1000))
      as [L|L]; simpl; try (exfalso; lra); [|reflexivity].
  destruct (Z.geb_spec (coffeeBeans s) (beans c)),
    (Z.ltb_spec (coffeeBeans s) (beans c)); simpl; try reflexivity; lia.
Qed.

Lemma canBrew_predicts_brew_witness :
  canBrew (snd (turnOn (init "Keurig" 1.5 150 "medium")))
  = success (fst (brew (snd (turnOn (init "Keurig" 1.5 150 "medium"))))).
Proof.
  apply (proj1 (canBrew_predicts_brew
                  (snd (turnOn (init "Keurig" 1.5 150 "medium")))
                  (Qle_bool_imp_le 0 1.5 eq_refl))).
Defined.

(** [setCupSize] accepts exactly the three keys of [CUP_SIZES] and
    otherwise returns [False] and keeps the size; the constructor turns any
    other size into "medium". *)
Theorem cup_size_is_one_of_three (size : string) (s : t) :
  (fst (setCupSize size s) = true <->
   size = "small" \/ size = "medium" \/ size = "large")%string /\
  (fst (setCupSize size s) = true ->
   cupSize (snd (setCupSize size s)) = size) /\
  (fst (setCupSize size s) = false -> snd (setCupSize size s) = s) /\
  (forall brand0 w b,
      fst (setCupSize size s) = false ->
      cupSize (init brand0 w b size) = "medium"%string).
Proof.
  unfold setCupSize, init. simpl.
  destruct (known_size size) eqn:E; simpl.
  - split; [|repeat split; auto; discriminate].
    split; [intros _; now apply known_size_cases | reflexivity].
  - split; [|repeat split; auto; discriminate].
    split; [discriminate|]. intros H. apply known_size_cases in H. congruence.
Qed.

Lemma cup_size_is_one_of_three_witness :
  cupSize
    (snd (setCupSize "large" (init "Keurig" 1.5 150 "medium")))
  = "large"%string.
Proof.
  apply (proj1 (proj2 (cup_size_is_one_of_three "large"
                         (init "Keurig" 1.5 150 "medium")))).
  reflexivity.
Defined.

(** The positive-amount test of [addBeans] comes before the conversion to
    whole grams: a positive amount below one gram passes it, is truncated
    to 0 and is reported as a success that adds nothing. *)
Theorem addBeans_below_one_gram (a : Q) (s : t) :
  (0 < a)%Q ->
  (a < 1)%Q ->
  (coffeeBeans s <= maxBeansCapacity s)%Z ->
  addBeans (Py.VFloat a) s
    = (mkResult true (BeansAdded 0 (coffeeBeans s)), s).
Proof.
  intros H0 H1 Hc. unfold addBeans. simpl.
  destruct (py_leb_spec a 0) as [?|_]; [lra|].
  assert (E : Py.int_of a = 0%Z).
  { destruct a as [n d]. unfold Qlt in *. simpl in *. unfold Py.int_of. simpl.
    apply Z.quot_small. lia. }
  rewrite E.
  destruct (Z.gtb_spec (coffeeBeans s + 0) (maxBeansCapacity s)); [lia|].
  simpl. rewrite Z.add_0_r. destruct s; reflexivity.
Qed.

Lemma addBeans_below_one_gram_witness :
  addBeans (Py.VFloat 0.5) (init "Keurig" 1.5 150 "medium")
  = (mkResult true (BeansAdded 0 150), init "Keurig" 1.5 150 "medium").
Proof.
  apply (addBeans_below_one_gram 0.5 (init "Keurig" 1.5 150 "medium"));
    [reflexivity | reflexivity | simpl; lia].
Defined.

(** The amounts in the messages of [addBeans] are the change made: "Added
    x, y overflow" after a rise of the beans by x, with x + y the whole
    grams of the amount given, and "Added x" after a rise by x; the "must
    be a positive number" message leaves the coffee maker as it was. *)
Theorem addBeans_report_matches_change (amount : Py.value) (s : t) :
  let b := snd (addBeans amount s) in
  match msg (fst (addBeans amount s)) with
  | BeanStorageFull added overflow =>
      (coffeeBeans b - coffeeBeans s = added)%Z /\
      (0 < overflow)%Z /\
      option_map Py.int_of (Py.as_number amount) = Some (added + overflow)%Z
  | BeansAdded added current =>
      (coffeeBeans b - coffeeBeans s = added)%Z /\
      current = coffeeBeans b /\
      option_map Py.int_of (Py.as_number amount) = Some added
  | BeansMustBePositive => b = s
  | _ => False
  end.
Proof.
  unfold addBeans.
  destruct (Py.as_number amount) as [a|]; simpl; [|reflexivity].
  destruct (py_leb_spec a 0); simpl; [reflexivity|].
  destruct (Z.gtb_spec (coffeeBeans s + Py.int_of a) (maxBeansCapacity s));
    simpl.
  - split; [lia|]. split; [lia|]. f_equal. lia.
  - split; [lia|]. split; reflexivity.
Qed.

End CoffeeMakerResources.

(** * smartphone.py: battery arithmetic, the PIN, the specifications *)

Section SmartphoneBattery.

Import Smartphone.

Lemma phone_call_frame (m : method) (s : t) :
  brand (snd (call m s)) = brand s /\
  model (snd (call m s)) = model s /\
  storageCapacity (snd (call m s)) = storageCapacity s /\
  match m with
  | Unlock _ | Lock => batteryLevel (snd (call m s)) = batteryLevel s
  | Charge _ | UseBattery _ => isLocked (snd (call m s)) = isLocked s
  end.
Proof.
  destruct m as [pin| |amount|amount]; simpl.
  - unfold unlock. destruct (Py.eq_str _ _); simpl; auto.
  - auto.
  - unfold charge. destruct (Py.as_number amount) as [a|]; simpl; auto.
    destruct (Py.ltb a 0); simpl; auto.
  - unfold useBattery. destruct (Py.as_number amount) as [a|]; simpl; auto.
    destruct (Py.ltb a 0); simpl; auto.
Qed.

(** No sequence of calls changes what [getSpecs] returns; locking and
    unlocking never touch the battery level, and charging and using the
    battery never touch the lock. *)
Theorem phone_specs_are_fixed (ms : list method) (m : method) (s : t) :
  getSpecs (snd (run ms s)) = getSpecs s /\
  match m with
  | Unlock _ | Lock => batteryLevel (snd (call m s)) = batteryLevel s
  | Charge _ | UseBattery _ => isLocked (snd (call m s)) = isLocked s
  end.
Proof.
  split; [|apply phone_call_frame].
  assert (H : brand (snd (run ms s)) = brand s /\
              model (snd (run ms s)) = model s /\
              storageCapacity (snd (run ms s)) = storageCapacity s).
  { apply (run_invariant
             (fun s' => brand s' = brand s /\ model s' = model s /\
                        storageCapacity s' = storageCapacity s));
      [|repeat split].
    intros m0 s0 (H1 & H2 & H3).
    destruct (phone_call_frame m0 s0) as (K1 & K2 & K3 & _).
    repeat split; congruence. }
  destruct H as (H1 & H2 & H3). unfold getSpecs. now rewrite H1, H2, H3.
Qed.

(** On a phone whose level is a whole number within 0 to 100, two
    charges by whole amounts leave the level one charge by their sum
    leaves, and likewise two uses of the battery, clamping included.
    Whole numbers are added exactly, as ints and as floats of this size. *)
Theorem battery_amounts_add_up (a b n : Z) (s : t) :
  (0 <= a)%Z ->
  (0 <= b)%Z ->
  Py.moderate (inject_Z a) = true ->
  Py.moderate (inject_Z b) = true ->
  (batteryLevel s == inject_Z n)%Q ->
  battery_in_range s ->
  (batteryLevel (snd (charge (Py.VInt b) (snd (charge (Py.VInt a) s))))
   == batteryLevel (snd (charge (Py.VInt (a + b)) s)))%Q /\
  (batteryLevel (snd (useBattery (Py.VInt b) (snd (useBattery (Py.VInt a) s))))
   == batteryLevel (snd (useBattery (Py.VInt (a + b)) s)))%Q.
Proof.
  intros Ha Hb _ _ _ _. unfold charge, useBattery. simpl.
  assert (Qa : (0 <= inject_Z a)%Q) by (unfold Qle; simpl; lia).
  assert (Qb : (0 <= inject_Z b)%Q) by (unfold Qle; simpl; lia).
  assert (Qab : (inject_Z (a + b) == inject_Z a + inject_Z b)%Q)
    by (rewrite inject_Z_plus; reflexivity).
  destruct (py_ltb_spec (inject_Z a) 0) as [?|_]; [lra|].
  destruct (py_ltb_spec (inject_Z (a + b)) 0) as [?|_]; [lra|]. simpl.
  destruct (py_ltb_spec (inject_Z b) 0) as [?|_]; [lra|]. simpl.
  unfold Py.min, Py.max.
  destruct (py_ltb_spec (batteryLevel s + inject_Z a) 100);
    destruct (py_gtb_spec (batteryLevel s - inject_Z a) 0);
    split; py_cases; lra.
Qed.

Lemma battery_amounts_add_up_witness :
  (batteryLevel
     (snd (charge (Py.VInt 40)
             (snd (charge (Py.VInt 30) (init "Apple" "iPhone 14" 256 50)))))
   == batteryLevel
        (snd (charge (Py.VInt (30 + 40)) (init "Apple" "iPhone 14" 256 50))))%Q.
Proof.
  apply (proj1 (battery_amounts_add_up 30 40 50
                  (init "Apple" "iPhone 14" 256 50)
                  (Zle_bool_imp_le 0 30 eq_refl)
                  (Zle_bool_imp_le 0 40 eq_refl)
                  eq_refl eq_refl
                  (Qeq_refl _)
                  (init_battery_in_range "Apple" "iPhone 14" 256 50))).
Defined.

(** On a phone whose level is a whole number within 0 to 100 and for a
    whole amount: using an amount the battery holds and charging the same
    amount gives back the level; charging an amount the battery has room
    for and using the same amount does too.  Using more than a battery
    below 100 holds and charging the same amount leaves more than there
    was. *)
Theorem battery_round_trips (a n : Z) (s : t) :
  (0 <= a)%Z ->
  Py.moderate (inject_Z a) = true ->
  (batteryLevel s == inject_Z n)%Q ->
  battery_in_range s ->
  let v := Py.VInt a in
  (inject_Z a <= batteryLevel s ->
   batteryLevel (snd (charge v (snd (useBattery v s)))) == batteryLevel s)%Q /\
  (batteryLevel s + inject_Z a <= 100 ->
   batteryLevel (snd (useBattery v (snd (charge v s)))) == batteryLevel s)%Q /\
  (batteryLevel s < inject_Z a ->
   batteryLevel s < 100 ->
   batteryLevel s
     < batteryLevel (snd (charge v (snd (useBattery v s)))))%Q.
Proof.
  intros Ha _ _ [Hlo Hhi] v. unfold v, charge, useBattery. simpl.
  assert (Qa : (0 <= inject_Z a)%Q) by (unfold Qle; simpl; lia).
  destruct (py_ltb_spec (inject_Z a) 0) as [?|_]; [lra|]. simpl.
  unfold Py.min, Py.max.
  destruct (py_ltb_spec (batteryLevel s + inject_Z a) 100);
    destruct (py_gtb_spec (batteryLevel s - inject_Z a) 0);
    repeat split; intros; py_cases; lra.
Qed.

Lemma battery_round_trips_witness :
  (batteryLevel
     (snd (charge (Py.VInt 25)
             (snd (useBattery (Py.VInt 25)
                     (init "Apple" "iPhone 14" 256 85)))))
   == batteryLevel (init "Apple" "iPhone 14" 256 85))%Q.
Proof.
  apply (proj1 (battery_round_trips 25 85
                  (init "Apple" "iPhone 14" 256 85)
                  (Zle_bool_imp_le 0 25 eq_refl) eq_refl (Qeq_refl _)
                  (init_battery_in_range "Apple" "iPhone 14" 256 85))).
  apply Qle_bool_imp_le; reflexivity.
Defined.

(** On a battery within 0 to 100, charging by a moderate amount of 100 or
    more fills it to exactly 100, where the status reads "Excellent", and
    using such an amount empties it to exactly 0, where the status reads
    "Very Low". *)
Theorem full_charge_and_full_drain (v : Py.value) (a : Q) (s : t) :
  Py.as_number v = Some a ->
  (100 <= a)%Q ->
  Py.moderate a = true ->
  battery_in_range s ->
  charge v s = (Py.Return 100%Q, set_batteryLevel 100 s) /\
  getBatteryStatus (snd (charge v s)) = "Excellent"%string /\
  useBattery v s = (Py.Return 0%Q, set_batteryLevel 0 s) /\
  getBatteryStatus (snd (useBattery v s)) = "Very Low"%string.
Proof.
  intros E Ha _ [Hlo Hhi]. unfold charge, useBattery. rewrite E.
  destruct (py_ltb_spec a 0) as [?|_]; [lra|].
  unfold Py.min, Py.max.
  destruct (py_ltb_spec (batteryLevel s + a) 100) as [?|_]; [lra|].
  destruct (py_gtb_spec (batteryLevel s - a) 0) as [?|_]; [lra|].
  repeat split.
Qed.

Lemma full_charge_and_full_drain_witness :
  charge (Py.VInt 100) (init "Apple" "iPhone 14" 256 85)
  = (Py.Return 100%Q, set_batteryLevel 100 (init "Apple" "iPhone 14" 256 85)).
Proof.
  apply (full_charge_and_full_drain (Py.VInt 100) (inject_Z 100)
           (init "Apple" "iPhone 14" 256 85) eq_refl
           (Qle_bool_imp_le 100 (inject_Z 100) eq_refl)
           eq_refl
           (init_battery_in_range "Apple" "iPhone 14" 256 85)).
Defined.

(** In every state a phone reaches from its constructor, [unlock] succeeds
    exactly for the string "1234" and for an omitted PIN; any other value,
    the number 1234 included, returns [False] and leaves the phone as it
    was. *)
Theorem unlock_needs_the_default_pin (brand0 model0 : string)
    (storageCapacity0 : Z) (batteryLevel0 : Q) (ms : list method)
    (pin : Py.value) :
  let s := snd (run ms (init brand0 model0 storageCapacity0 batteryLevel0)) in
  (fst (unlock pin s) = true <->
   pin = Py.VNone \/ pin = Py.VStr "1234") /\
  (fst (unlock pin s) = false -> snd (unlock pin s) = s).
Proof.
  intros s.
  assert (Hpin : _correctPin s = "1234"%string).
  { unfold s.
    apply (run_invariant (fun s => _correctPin s = "1234"%string)).
    - intros m s0 H0. now rewrite call_keeps_pin.
    - reflexivity. }
  unfold unlock. rewrite Hpin.
  destruct pin as [z|q|x|]; simpl.
  - split; [|reflexivity]. split; [discriminate|].
    intros [H|H]; discriminate H.
  - split; [|reflexivity]. split; [discriminate|].
    intros [H|H]; discriminate H.
  - destruct (String.eqb_spec x "1234") as [->|N]; simpl.
    + split; [|discriminate]. split; auto.
    + split; [|reflexivity]. split; [discriminate|].
      intros [H|H]; [discriminate H | injection H as ->; now elim N].
  - split; [|discriminate]. split; auto.
Qed.

Lemma unlock_needs_the_default_pin_witness :
  snd (unlock (Py.VInt 1234)
         (snd (run [Lock] (init "Apple" "iPhone 14" 256 85))))
  = snd (run [Lock] (init "Apple" "iPhone 14" 256 85)).
Proof.
  apply (proj2 (unlock_needs_the_default_pin "Apple" "iPhone 14" 256 85
                  [Lock] (Py.VInt 1234))).
  reflexivity.
Defined.

End SmartphoneBattery.
